(** * Node-Farm: the request handler, the start-up script and template rendering

    A shallow embedding of [new.js].  The script loads three HTML templates
    and a JSON document at start-up and then answers every HTTP request from
    one handler that dispatches on the parsed pathname.

    Conventions of the embedding:
    - a JavaScript string is a [string] of 8-bit characters;
    - a call that may throw returns a [completion];
    - the module-level constants ([tempOverview], [tempCard], [tempProduct],
      [data], [dataObj]) and the [res] object of the current request form the
      state threaded through the handler;
    - the file system is a finite map from paths to file contents. *)

From Stdlib Require Import String Ascii ZArith NArith DecimalString Bool.
From Stdlib Require DecimalN.
From stdpp Require Import gmap strings list.

Local Open Scope string_scope.

(** ** Strings of the host language *)

Module JS.

(** [s.slice(n)] for [0 <= n]. *)
Fixpoint slice (n : nat) (s : string) : string :=
  match n, s with
  | O, _ => s
  | S _, EmptyString => EmptyString
  | S k, String _ s' => slice k s'
  end.

(** [s.indexOf(pat)] presented as the text before and after the first
    occurrence of [pat]; [None] is the result [-1]. *)
Fixpoint search (pat s : string) : option (string * string) :=
  if String.prefix pat s then Some (EmptyString, slice (String.length pat) s)
  else match s with
       | EmptyString => None
       | String c s' =>
           match search pat s' with
           | Some (before, after) => Some (String c before, after)
           | None => None
           end
       end.

(** The abstract operation GetSubstitution of ECMA-262 for a match without
    capture groups: in the replacement text [$$] stands for a dollar sign,
    [$&] for the matched text, [$`] for the text before the match and [$']
    for the text after it; every other character, a dollar sign followed by
    anything else included, stands for itself. *)
Fixpoint GetSubstitution (matched before after replacement : string) : string :=
  match replacement with
  | EmptyString => EmptyString
  | String c rest =>
      if Ascii.eqb c "$" then
        match rest with
        | EmptyString => String c EmptyString
        | String d rest' =>
            if Ascii.eqb d "$" then
              String "$" (GetSubstitution matched before after rest')
            else if Ascii.eqb d "&" then
              matched +:+ GetSubstitution matched before after rest'
            else if Ascii.eqb d "`" then
              before +:+ GetSubstitution matched before after rest'
            else if Ascii.eqb d "'" then
              after +:+ GetSubstitution matched before after rest'
            else String c (GetSubstitution matched before after rest)
        end
      else String c (GetSubstitution matched before after rest)
  end.

(** [s.replace(pat, replacement)] with a string pattern: only the first
    occurrence is replaced, and the replacement text goes through
    [GetSubstitution]. *)
Definition replace (s pat replacement : string) : string :=
  match search pat s with
  | None => s
  | Some (before, after) =>
      before +:+ GetSubstitution pat before after replacement +:+ after
  end.

(** Text without a dollar sign. *)
Fixpoint dollar_free (s : string) : bool :=
  match s with
  | EmptyString => true
  | String c s' => negb (Ascii.eqb c "$") && dollar_free s'
  end.

(** [parts.join('')]. *)
Definition join (parts : list string) : string :=
  fold_right String.append EmptyString parts.

(** [parts.join(',')], the text of an array used as a property key. *)
Fixpoint join_comma (parts : list string) : string :=
  match parts with
  | [] => EmptyString
  | [p] => p
  | p :: rest => p +:+ "," +:+ join_comma rest
  end.

(** Replacement of every occurrence of a non-empty [pat], scanning from the
    left and resuming after each match; the replacement text is inserted as
    it is.  [skip] counts the characters of a match still to be passed
    over. *)
Fixpoint replaceAll_from (skip : nat) (pat rep s : string) : string :=
  match s with
  | EmptyString => EmptyString
  | String c s' =>
      match skip with
      | S k => replaceAll_from k pat rep s'
      | O =>
          if String.prefix pat s
          then rep +:+ replaceAll_from (String.length pat - 1) pat rep s'
          else String c (replaceAll_from 0 pat rep s')
      end
  end.

Definition replaceAll (s pat rep : string) : string :=
  replaceAll_from 0 pat rep s.

(** [c.toUpperCase()] on the ASCII letters. *)
Definition upper_ascii (c : ascii) : ascii :=
  let n := N_of_ascii c in
  if (97 <=? n)%N && (n <=? 122)%N then ascii_of_N (n - 32) else c.

Fixpoint toUpperCase (s : string) : string :=
  match s with
  | EmptyString => EmptyString
  | String c s' => String (upper_ascii c) (toUpperCase s')
  end.

(** Is [c] one of the digits [0] to [9]? *)
Definition is_digit (c : ascii) : bool :=
  let n := N_of_ascii c in (48 <=? n)%N && (n <=? 57)%N.

Fixpoint digits_value (acc : N) (s : string) : option N :=
  match s with
  | EmptyString => Some acc
  | String c s' =>
      if is_digit c
      then digits_value (10 * acc + (N_of_ascii c - 48))%N s'
      else None
  end.

(** A property key is an array index when it is the canonical decimal text
    of a natural number: digits only, not empty, no leading zero. *)
Definition array_index (key : string) : option N :=
  match key with
  | EmptyString => None
  | String c rest =>
      if Ascii.eqb c "0" && negb (String.eqb rest EmptyString) then None
      else digits_value 0 key
  end.

End JS.

(** ** Values *)

(** The integers that a number of the host holds exactly; [String] prints
    them in plain decimal. *)
Definition safe_integer (z : Z) : bool := (Z.abs z <? 2 ^ 53)%Z.

(** The value of a field of a product.  A string, a safe integer, a boolean
    and [null] are kept as they are.  Any other value of a JSON document (a
    fraction, a number beyond the safe integers, an array, a nested object)
    is kept as [FOther], known only by the text that [String] gives it. *)
Inductive field_value :=
| FString (s : string)
| FNumber (z : Z) (safe : safe_integer z = true)
| FBool (b : bool)
| FNull
| FOther (text : string).

(** [String(v)]: the string itself, the decimal digits of a safe integer
    with a minus sign when negative, [true], [false], [null], and for any
    other value the text it is known by. *)
Definition to_text (v : field_value) : string :=
  match v with
  | FString s => s
  | FNumber z _ => NilZero.string_of_int (Z.to_int z)
  | FBool true => "true"
  | FBool false => "false"
  | FNull => "null"
  | FOther text => text
  end.

(** One element of [dataObj]: the fields of a JSON object in document
    order. *)
Definition product := list (string * field_value).

(** What [dataObj[key]] can evaluate to. *)
Inductive value :=
| VUndefined
| VProduct (p : product)
| VNumber (n : nat)
| VBuiltin (name : string).

(** A value of the parsed query string: one string, or an array of strings
    when the parameter is repeated. *)
Inductive query_value :=
| QString (s : string)
| QArray (l : list string).

(** The result of [url.parse(req.url, true)]: [pathname] is [None] for
    [null]. *)
Record ParsedUrl := {
  pathname : option string;
  query : gmap string query_value
}.

(** Exceptions carry their message. *)
Definition exn := string.

Inductive completion (A : Type) :=
| Normal (a : A)
| Throw (e : exn).
Arguments Normal {A} a.
Arguments Throw {A} e.

(** ** State and errors *)

(** Computations over a state [S] that return or throw. *)
Definition M (S A : Type) : Type := S -> S * completion A.

Definition ret {S A} (a : A) : M S A := fun s => (s, Normal a).

Definition bind {S A B} (m : M S A) (k : A -> M S B) : M S B :=
  fun s =>
    match m s with
    | (s', Normal a) => k a s'
    | (s', Throw e) => (s', Throw e)
    end.

#[global] Instance M_ret {S} : MRet (M S) := fun A a => ret a.
#[global] Instance M_bind {S} : MBind (M S) := fun A B k m => bind m k.

Definition throw {S A} (e : exn) : M S A := fun s => (s, Throw e).

(** A call of a function that touches no state. *)
Definition call {S A} (c : completion A) : M S A := fun s => (s, c).

Definition gets {S A} (f : S -> A) : M S A := fun s => (s, Normal (f s)).

Definition modify {S} (f : S -> S) : M S unit := fun s => (f s, Normal tt).

(** A computation preserves a projection [f] of the state. *)
Definition preserves {S A T} (f : S -> T) (m : M S A) : Prop :=
  forall s, f (fst (m s)) = f s.

(** [xs.map(f)], left to right; the first exception ends the loop. *)
Fixpoint mapM {S A B} (f : A -> M S B) (xs : list A) : M S (list B) :=
  match xs with
  | [] => mret []
  | x :: rest =>
      y ← f x;
      ys ← mapM f rest;
      mret (y :: ys)
  end.

(** ** Template rendering *)

Module Template.

(** The token of a field: its name in upper case between [{%] and [%}]. *)
Definition placeholder (field : string) : string :=
  "{%" +:+ JS.toUpperCase field +:+ "%}".

(** Modelled from the spec: [modules/replaceTemplate.js] is required by
    [new.js] but is not among the sources.  Following the contract of the
    template renderer, the fields of the record are taken in turn and every
    occurrence of the token of a field is replaced by the text of its value;
    tokens naming no field of the record stay as they are, and nothing
    throws. *)
Definition replaceTemplate (temp : string) (p : product) : string :=
  fold_left
    (fun output '(field, v) => JS.replaceAll output (placeholder field) (to_text v))
    p temp.

(** Modelled from the spec: the renderer applied to whatever an index lookup
    yields.  A value that is not a product has no field to substitute (the
    spec's render of an undefined record), so the template comes back as it
    is. *)
Definition render (temp : string) (v : value) : completion string :=
  match v with
  | VProduct p => Normal (replaceTemplate temp p)
  | _ => Normal temp
  end.

(** A template cut into literal text and tokens. *)
Inductive segment :=
| Lit (s : string)
| Tok (field : string).

Definition segment_text (seg : segment) : string :=
  match seg with
  | Lit s => s
  | Tok f => placeholder f
  end.

Definition template_of (segs : list segment) : string :=
  JS.join (map segment_text segs).

(** The value a token stands for: that of the first field of the record
    with the same token. *)
Fixpoint field_for (f : string) (p : product) : option field_value :=
  match p with
  | [] => None
  | (k, v) :: rest =>
      if String.eqb (JS.toUpperCase k) (JS.toUpperCase f) then Some v
      else field_for f rest
  end.

(** A segment after rendering: a token of a field becomes the text of the
    value, any other segment stays. *)
Definition fill (p : product) (seg : segment) : string :=
  match seg with
  | Lit s => s
  | Tok f =>
      match field_for f p with
      | Some v => to_text v
      | None => placeholder f
      end
  end.

(** Text in which [{%] does not occur and which does not end in [{]. *)
Fixpoint plain (s : string) : bool :=
  match s with
  | EmptyString => true
  | String c s' =>
      match s' with
      | EmptyString => negb (Ascii.eqb c "{")
      | String d _ => negb (Ascii.eqb c "{" && Ascii.eqb d "%") && plain s'
      end
  end.

(** Text without the characters [{] and [%]. *)
Fixpoint braceless (s : string) : bool :=
  match s with
  | EmptyString => true
  | String c s' => negb (Ascii.eqb c "{") && negb (Ascii.eqb c "%") && braceless s'
  end.

(** One step of the loop of [replaceTemplate] seen on segments: the tokens
    named [name] become the text [rep]. *)
Definition subst1 (name rep : string) (seg : segment) : segment :=
  match seg with
  | Lit s => Lit s
  | Tok f => if String.eqb name (JS.toUpperCase f) then Lit rep else Tok f
  end.

(** A record whose field names give tokens without [{] and [%] inside and
    whose values have plain text. *)
Definition record_ok (p : product) : bool :=
  forallb (fun '(k, v) => braceless (JS.toUpperCase k) && plain (to_text v)) p.

(** Segments whose literal text is plain and whose tokens have no [{] and
    [%] inside. *)
Definition template_ok (segs : list segment) : bool :=
  forallb (fun seg =>
             match seg with
             | Lit s => plain s
             | Tok f => braceless (JS.toUpperCase f)
             end) segs.

(** [pat] occurs in [s]. *)
Definition occurs (pat s : string) : Prop :=
  exists before after, s = before +:+ pat +:+ after.

End Template.

(** ** The server *)

(** The constants bound at module level before the server is created. *)
Record Globals := {
  tempOverview : string;
  tempCard : string;
  tempProduct : string;
  data : string;
  dataObj : list product
}.

(** What the handler has written to [res]: the status and headers given to
    [writeHead], and the body given to [end]. *)
Record Response := {
  statusCode : option nat;
  headers : list (string * string);
  body : option string
}.

Definition fresh : Response :=
  {| statusCode := None; headers := []; body := None |}.

Record World := {
  globals : Globals;
  res : Response
}.

(** Reading a module-level constant. *)
Definition global {A} (f : Globals -> A) : M World A :=
  gets (fun w => f (globals w)).

(** [res.writeHead(status, hdrs)]. *)
Definition writeHead (status : nat) (hdrs : list (string * string)) : M World unit :=
  modify (fun w =>
    {| globals := globals w;
       res := {| statusCode := Some status; headers := hdrs; body := body (res w) |} |}).

(** [res.end(output)]. *)
Definition end_ (output : string) : M World unit :=
  modify (fun w =>
    {| globals := globals w;
       res := {| statusCode := statusCode (res w); headers := headers (res w);
                 body := Some output |} |}).

(** [pathname === lit]; [null] equals no string. *)
Definition strict_eq (p : option string) (lit : string) : bool :=
  match p with
  | Some s => String.eqb s lit
  | None => false
  end.

(** The property key that [dataObj[query.id]] uses: the text of [query.id],
    which is [undefined] when the parameter is missing. *)
Definition property_key (q : option query_value) : string :=
  match q with
  | None => "undefined"
  | Some (QString s) => s
  | Some (QArray l) => JS.join_comma l
  end.

(** The four branches of the handler. *)
Inductive Route := Overview | ProductPage | Api | NotFound.

(** The condition under which the handler takes a branch, as the source
    writes it. *)
Definition selects (r : Route) (p : option string) : Prop :=
  match r with
  | Overview => p = Some "/" \/ p = Some "/overview"
  | ProductPage => p = Some "/product"
  | Api => p = Some "/api"
  | NotFound =>
      p <> Some "/" /\ p <> Some "/overview" /\ p <> Some "/product" /\ p <> Some "/api"
  end.

Section Server.

(** The renderer imported from [./modules/replaceTemplate]: any function
    of the template and the value that returns a string or throws.  Its
    result depends on its two arguments only and it changes nothing, which
    is what the description of the renderer promises. *)
Variable replaceTemplate : string -> value -> completion string.

(** The names found on the prototype chain of an array ([map], [join],
    [constructor], ...): a table of the host, not of this program. *)
Variable is_builtin : string -> bool.

(** [url.parse(target, true)] of the host, as far as the callback uses it:
    the pathname and the query of a request target, or the exception that
    the parser throws on a target it refuses. *)
Variable url_parse : string -> completion ParsedUrl.

(** [arr[key]] on an array of products: an element for an index in range,
    the number of elements for [length], an inherited member for a name
    of the prototype chain, [undefined] for everything else. *)
Definition array_get (arr : list product) (key : string) : value :=
  match JS.array_index key with
  | Some i =>
      match arr !! N.to_nat i with
      | Some p => VProduct p
      | None => VUndefined
      end
  | None =>
      if String.eqb key "length" then VNumber (length arr)
      else if is_builtin key then VBuiltin key
      else VUndefined
  end.

(** Lines 83-106. *)
Definition overview_page : M World unit :=
  arr ← global dataObj;
  card ← global tempCard;
  cards ← mapM (fun el => call (replaceTemplate card (VProduct el))) arr;
  let cardsHtml := JS.join cards in
  overview ← global tempOverview;
  let output := JS.replace overview "{%PRODUCT_CARDS%}" cardsHtml in
  writeHead 200 [("content-type", "text/html")];;
  end_ output.

(** Lines 109-116. *)
Definition product_page (q : gmap string query_value) : M World unit :=
  writeHead 200 [("content-type", "text/html")];;
  arr ← global dataObj;
  let product := array_get arr (property_key (q !! "id")) in
  temp ← global tempProduct;
  output ← call (replaceTemplate temp product);
  end_ output.

(** Lines 119-123. *)
Definition api_page : M World unit :=
  writeHead 200 [("content-type", "application/json")];;
  text ← global data;
  end_ text.

(** Lines 127-133. *)
Definition not_found_page : M World unit :=
  writeHead 404 [("content-type", "text/html"); ("my-own-header", "hello-world")];;
  end_ "<h1>Page not found</h1>".

(** Lines 83-133: the statements of the callback that follow line 73, on
    the pathname and the query that [url.parse] has returned. *)
Definition handler (req : ParsedUrl) : M World unit :=
  if strict_eq (pathname req) "/" || strict_eq (pathname req) "/overview"
  then overview_page
  else if strict_eq (pathname req) "/product" then product_page (query req)
  else if strict_eq (pathname req) "/api" then api_page
  else not_found_page.

(** The body of each branch of [handler]. *)
Definition branch (r : Route) (req : ParsedUrl) : M World unit :=
  match r with
  | Overview => overview_page
  | ProductPage => product_page (query req)
  | Api => api_page
  | NotFound => not_found_page
  end.

(** One request whose target has been parsed: the statements after line 73
    run on a fresh [res]. *)
Definition respond (g : Globals) (req : ParsedUrl) : World * completion unit :=
  handler req {| globals := g; res := fresh |}.

(** Lines 65-134: the callback given to [http.createServer], on the target
    [req.url] of a request.  Line 73 parses the target; nothing catches an
    exception of the parser, which then leaves the callback before any
    branch. *)
Definition listener (target : string) : M World unit :=
  req ← call (url_parse target);
  handler req.

(** One request: the callback runs on a fresh [res]. *)
Definition receive (g : Globals) (target : string) : World * completion unit :=
  listener target {| globals := g; res := fresh |}.

(** The requests of a run, one after the other.  An exception that
    escapes the handler is uncaught and ends the process. *)
Fixpoint serve (g : Globals) (reqs : list ParsedUrl)
  : Globals * list (Response * completion unit) :=
  match reqs with
  | [] => (g, [])
  | req :: rest =>
      match respond g req with
      | (w, Normal u) =>
          let '(g', out) := serve (globals w) rest in
          (g', (res w, Normal u) :: out)
      | (w, Throw e) => (globals w, [(res w, Throw e)])
      end
  end.

End Server.

(** ** Start-up *)

Definition newline : string := String "010"%char EmptyString.

(** The files the script can see and what it has printed.  A file is known
    by the path the script passes to [fs], and paths that differ as text
    name different files: no link leads from one to another, and the
    working directory, where [final.txt] is written, is not the directory
    [txt].  Nothing else writes to the disk while the script runs. *)
Record System := {
  files : gmap string string;
  console : list string
}.

(** The error of a read that fails. *)
Definition ENOENT (path : string) : exn :=
  "ENOENT: no such file or directory, open '" +:+ path +:+ "'".

(** [fs.readFileSync(path, 'utf-8')]: throws when the file cannot be read. *)
Definition readFileSync (path : string) : M System string :=
  fun s =>
    match files s !! path with
    | Some text => (s, Normal text)
    | None => (s, Throw (ENOENT path))
    end.

(** [fs.writeFileSync(path, text)]; writing is taken to succeed. *)
Definition writeFileSync (path text : string) : M System unit :=
  modify (fun s => {| files := <[path := text]> (files s); console := console s |}).

(** [console.log(msg)]. *)
Definition console_log (msg : string) : M System unit :=
  modify (fun s => {| files := files s; console := console s ++ [msg] |}).

(** The system after [msgs] have been printed. *)
Definition logged (msgs : list string) (s : System) : System :=
  {| files := files s; console := console s ++ msgs |}.

(** [fs.readFile(path, 'utf-8', callback)] at the time the callback runs:
    the callback receives [None] when [err] is set and the text otherwise. *)
Definition readFile (path : string) (callback : option string -> M System unit)
  : M System unit :=
  fun s => callback (files s !! path) s.

(** [fs.writeFile(path, text, 'utf-8', callback)]. *)
Definition writeFile (path text : string) (callback : M System unit) : M System unit :=
  writeFileSync path text;; callback.

Inductive Process :=
| Crashed (s : System) (e : exn)
| Serving (s : System) (g : Globals).

Section Startup.

(** [__dirname]. *)
Variable dirname : string.

(** [JSON.parse] on a document that is an array of flat objects; it
    throws on text that is not JSON. *)
Variable JSON_parse : string -> completion (list product).

(** Lines 15-23 and 56-63: the statements that run to completion before the
    server is created. *)
Definition top_level : M System Globals :=
  textInput ← readFileSync (dirname +:+ "/txt/input.txt");
  textAppend ← readFileSync (dirname +:+ "/txt/append.txt");
  writeFileSync (dirname +:+ "/txt/output.txt") "Hello World!";;
  console_log "Text written!";;
  writeFileSync "final.txt" (textInput +:+ newline +:+ textAppend);;
  console_log "Final text written!";;
  tempOverview ← readFileSync (dirname +:+ "/templates/template-overview.html");
  tempCard ← readFileSync (dirname +:+ "/templates/template-card.html");
  tempProduct ← readFileSync (dirname +:+ "/templates/template-product.html");
  data ← readFileSync (dirname +:+ "/dev-data/data.json");
  dataObj ← call (JSON_parse data);
  mret {| tempOverview := tempOverview; tempCard := tempCard;
          tempProduct := tempProduct; data := data; dataObj := dataObj |}.

(** Lines 28-50: the chain of callbacks started by [fs.readFile]; they run
    once the top-level statements have finished. *)
Definition read_chain : M System unit :=
  readFile (dirname +:+ "/txt/start.txt") (fun r =>
    match r with
    | None => console_log "error!"
    | Some data1 =>
        readFile (dirname +:+ "/txt/" +:+ data1 +:+ ".txt") (fun r2 =>
          match r2 with
          | None => console_log "error!"
          | Some data2 =>
              console_log data2;;
              readFile (dirname +:+ "/txt/append.txt") (fun r3 =>
                match r3 with
                | None => console_log "error!"
                | Some data3 =>
                    console_log data3;;
                    writeFile (dirname +:+ "/txt/output.txt")
                      (data2 +:+ newline +:+ data3)
                      (console_log "File written!")
                end)
          end)
    end).

(** Lines 141-143: the callback of [server.listen].  The port is taken to
    be valid and free, so that the server does listen. *)
Definition listening : M System unit :=
  console_log "Listening to local host...".

(** The callbacks that run once the top-level statements have finished:
    that of [server.listen] on the next tick, then the chain of
    [fs.readFile], whose callbacks wait for the disk. *)
Definition callbacks : M System unit :=
  listening;; read_chain.

(** The process from its first statement: an exception at top level ends
    it before [server.listen]; otherwise the server listens and the
    pending callbacks run, and an exception that escaped one of them would
    end the process too. *)
Definition start (disk : gmap string string) : Process :=
  match top_level {| files := disk; console := [] |} with
  | (s, Throw e) => Crashed s e
  | (s, Normal g) =>
      match callbacks s with
      | (s', Normal _) => Serving s' g
      | (s', Throw e) => Crashed s' e
      end
  end.

(** What the disk holds once the top-level statements have run. *)
Definition after_top_level (disk : gmap string string) (textInput textAppend : string)
  : System :=
  {| files := <["final.txt" := textInput +:+ newline +:+ textAppend]>
                (<[dirname +:+ "/txt/output.txt" := "Hello World!"]> disk);
     console := ["Text written!"; "Final text written!"] |}.

(** The files read by [readFileSync] at top level. *)
Definition top_level_reads : list string :=
  [ dirname +:+ "/txt/input.txt";
    dirname +:+ "/txt/append.txt";
    dirname +:+ "/templates/template-overview.html";
    dirname +:+ "/templates/template-card.html";
    dirname +:+ "/templates/template-product.html";
    dirname +:+ "/dev-data/data.json" ].

End Startup.

(** ** A small farm *)

Module Sample.

Definition quoted (s : string) : string :=
  String "034"%char s +:+ String "034"%char EmptyString.

Definition apples : product :=
  [("productName", FString "Apples"); ("price", FString "6.50")].

Definition apples_json : string :=
  "[{" +:+ quoted "productName" +:+ ":" +:+ quoted "Apples" +:+ "," +:+
  quoted "price" +:+ ":" +:+ quoted "6.50" +:+ "}]".

(** A card that shows the name and the price of a product, and the price
    level of the farm as two dollar signs. *)
Definition card : list Template.segment :=
  [Template.Lit "<p>"; Template.Tok "productName"; Template.Lit ": ";
   Template.Tok "price"; Template.Lit " <small>$$</small></p>"].

Definition page : list Template.segment :=
  [Template.Lit "<h1>"; Template.Tok "productName"; Template.Lit "</h1><p>";
   Template.Tok "description"; Template.Lit "</p>"].

Definition farm : Globals :=
  {| tempOverview := "<main>{%PRODUCT_CARDS%}</main>";
     tempCard := Template.template_of card;
     tempProduct := Template.template_of page;
     data := apples_json;
     dataObj := [apples] |}.

(** A parser that knows two documents. *)
Definition parse (text : string) : completion (list product) :=
  if String.eqb text apples_json then Normal [apples]
  else if String.eqb text "[]" then Normal []
  else Throw "SyntaxError: Unexpected token".

(** A disk with everything the top-level statements read, and no
    [txt/start.txt]. *)
Definition disk : gmap string string :=
  list_to_map
    [ ("/app/txt/input.txt", "first");
      ("/app/txt/append.txt", "second");
      ("/app/templates/template-overview.html", tempOverview farm);
      ("/app/templates/template-card.html", tempCard farm);
      ("/app/templates/template-product.html", tempProduct farm);
      ("/app/dev-data/data.json", apples_json) ].

(** No inherited member is looked up in the examples. *)
Definition no_builtin (name : string) : bool := false.

Definition get (path : string) (id : option string) : ParsedUrl :=
  {| pathname := Some path;
     query := match id with
              | Some i => {[ "id" := QString i ]}
              | None => ∅
              end |}.

(** A stand-in for [url.parse(target, true)] on the request targets of the
    examples.  The text before the first question mark is the pathname, and
    a query string of the form [id=v] gives the one parameter [id]; any
    other query string is not looked at.  The absolute-form target
    [http://%@localhost/] is refused as [url.parse] refuses it: the user
    information [%] in front of the [@] is handed to [decodeURIComponent],
    which throws a [URIError]. *)
Definition url_parse (target : string) : completion ParsedUrl :=
  if String.eqb target "http://%@localhost/"
  then Throw "URIError: URI malformed"
  else match JS.search "?" target with
       | None => Normal (get target None)
       | Some (path, search) =>
           if String.prefix "id=" search
           then Normal (get path (Some (JS.slice 3 search)))
           else Normal (get path None)
       end.

(** The system once the process started from [disk] is serving. *)
Definition booted : System :=
  fst (callbacks "/app" (after_top_level "/app" disk "first" "second")).

End Sample.

(** ** Further notions used in the properties *)

(** [String(n)] for a natural number [n]: its decimal digits, without a
    leading zero. *)
Definition decimal (n : N) : string :=
  NilZero.string_of_uint (N.to_uint n).

(** The answer of a branch that has written [status] and [hdrs] and ended
    the response with [output]. *)
Definition answered (g : Globals) (status : nat) (hdrs : list (string * string))
    (output : string) : World * completion unit :=
  ({| globals := g;
      res := {| statusCode := Some status; headers := hdrs; body := Some output |} |},
   Normal tt).

(** The answer of the product page for the value [v] found in [dataObj]:
    the head is written, then the renderer returns or throws. *)
Definition product_answer (render : string -> value -> completion string)
    (g : Globals) (v : value) : World * completion unit :=
  match render (tempProduct g) v with
  | Normal output => answered g 200 [("content-type", "text/html")] output
  | Throw e =>
      ({| globals := g;
          res := {| statusCode := Some 200;
                    headers := [("content-type", "text/html")];
                    body := None |} |}, Throw e)
  end.

(** The system a process leaves behind when a top-level statement throws:
    both text files are written once the two inputs have been read, and
    nothing is written before. *)
Definition state_at_crash (dirname : string) (disk : gmap string string) : System :=
  match disk !! (dirname +:+ "/txt/input.txt"),
        disk !! (dirname +:+ "/txt/append.txt") with
  | Some textInput, Some textAppend =>
      after_top_level dirname disk textInput textAppend
  | _, _ => {| files := disk; console := [] |}
  end.

(** A file name without a slash: the path [txt/<name>.txt] built from it
    names a file of the directory [txt] itself, which a name such as
    [../final] does not. *)
Fixpoint slashless (name : string) : bool :=
  match name with
  | EmptyString => true
  | String c rest => negb (Ascii.eqb c "/") && slashless rest
  end.

(** ** A second farm *)

Module Orchard.

Definition pears : product :=
  [("productName", FString "Pears"); ("price", FString "4.20")].

Definition plums : product :=
  [("productName", FString "Plums"); ("price", FString "3.10")].

(** An overview template that holds the placeholder twice. *)
Definition farm : Globals :=
  {| tempOverview := "<ul>{%PRODUCT_CARDS%}</ul><!--{%PRODUCT_CARDS%}-->";
     tempCard := "<li>{%PRODUCTNAME%}</li>";
     tempProduct := "<h1>{%PRODUCTNAME%}</h1>";
     data := "[]";
     dataObj := [pears; plums] |}.

(** The same farm with an overview template without placeholder. *)
Definition bare : Globals :=
  {| tempOverview := "<p>closed</p>";
     tempCard := tempCard farm;
     tempProduct := tempProduct farm;
     data := data farm;
     dataObj := dataObj farm |}.

(** A renderer that throws on a product without a name. *)
Definition strict (temp : string) (v : value) : completion string :=
  match v with
  | VProduct p =>
      match Template.field_for "productName" p with
      | Some _ => Template.render temp v
      | None => Throw "TypeError: product has no name"
      end
  | _ => Throw "TypeError: Cannot read properties of undefined"
  end.

(** A farm whose second product has no name. *)
Definition broken : Globals :=
  {| tempOverview := tempOverview farm;
     tempCard := tempCard farm;
     tempProduct := tempProduct farm;
     data := data farm;
     dataObj := [pears; []; plums] |}.

(** A disk on which [txt/start.txt] names the file [txt/read-this.txt]. *)
Definition disk : gmap string string :=
  <["/app/txt/start.txt" := "read-this"]>
    (<["/app/txt/read-this.txt" := "The avocado"]> Sample.disk).

(** The system once the process started from [disk] is serving. *)
Definition booted : System :=
  fst (callbacks "/app" (after_top_level "/app" disk "first" "second")).

(** The farm before any product is listed. *)
Definition vacant : Globals :=
  {| tempOverview := tempOverview farm;
     tempCard := tempCard farm;
     tempProduct := tempProduct farm;
     data := data farm;
     dataObj := [] |}.

(** A disk whose JSON document is cut short. *)
Definition torn : gmap string string :=
  <["/app/dev-data/data.json" := "[{"]> Sample.disk.

End Orchard.

(** * Properties *)

(** ** The monad *)

Lemma bind_normal {S A B} (m : M S A) (k : A -> M S B) s s' a :
  m s = (s', Normal a) -> (m ≫= k) s = k a s'.
Proof. intros E. unfold mbind, M_bind, bind. rewrite E. reflexivity. Qed.

Lemma run_call {S A B} (c : completion A) (k : A -> M S B) s :
  (call c ≫= k) s =
    match c with
    | Normal a => k a s
    | Throw e => (s, Throw e)
    end.
Proof. unfold mbind, M_bind, bind, call. destruct c; reflexivity. Qed.

Lemma preserves_bind {S A B T} (f : S -> T) (m : M S A) (k : A -> M S B) :
  preserves f m -> (forall a, preserves f (k a)) -> preserves f (m ≫= k).
Proof.
  intros Hm Hk s. unfold mbind, M_bind, bind.
  specialize (Hm s). destruct (m s) as [s' [a|e]]; simpl in *.
  - rewrite Hk. exact Hm.
  - exact Hm.
Qed.

Lemma preserves_ret {S A T} (f : S -> T) (a : A) : preserves f (mret a : M S A).
Proof. intros s. reflexivity. Qed.

Lemma preserves_call {S A T} (f : S -> T) (c : completion A) :
  preserves f (call c : M S A).
Proof. intros s. reflexivity. Qed.

Lemma preserves_gets {S A T} (f : S -> T) (h : S -> A) : preserves f (gets h).
Proof. intros s. reflexivity. Qed.

Lemma preserves_mapM {S A B T} (f : S -> T) (h : A -> M S B) xs :
  (forall x, preserves f (h x)) -> preserves f (mapM h xs).
Proof.
  intros Hh. induction xs as [|x xs IH]; simpl.
  - apply preserves_ret.
  - apply preserves_bind; [apply Hh|]. intros y.
    apply preserves_bind; [exact IH|]. intros ys. apply preserves_ret.
Qed.

(** ** The request handler *)

Section ServerFacts.

Variable replaceTemplate : string -> value -> completion string.
Variable is_builtin : string -> bool.
Variable url_parse : string -> completion ParsedUrl.

Local Abbreviation handler := (handler replaceTemplate is_builtin).
Local Abbreviation listener := (listener replaceTemplate is_builtin url_parse).
Local Abbreviation receive := (receive replaceTemplate is_builtin url_parse).
Local Abbreviation respond := (respond replaceTemplate is_builtin).
Local Abbreviation serve := (serve replaceTemplate is_builtin).
Local Abbreviation branch := (branch replaceTemplate is_builtin).
Local Abbreviation array_get := (array_get is_builtin).

Lemma strict_eq_true p lit : strict_eq p lit = true <-> p = Some lit.
Proof.
  destruct p as [s|]; simpl.
  - rewrite String.eqb_eq. split; congruence.
  - split; discriminate.
Qed.

Lemma strict_eq_false p lit : strict_eq p lit = false <-> p <> Some lit.
Proof.
  rewrite <- strict_eq_true. destruct (strict_eq p lit); split; congruence.
Qed.

(** The handler takes the branch whose condition holds. *)
Lemma handler_branch req r :
  selects r (pathname req) -> handler req = branch r req.
Proof.
  unfold handler. destruct r; simpl.
  - intros [E|E]; rewrite E; reflexivity.
  - intros E; rewrite E; reflexivity.
  - intros E; rewrite E; reflexivity.
  - intros (H1 & H2 & H3 & H4).
    apply strict_eq_false in H1, H2, H3, H4.
    rewrite H1, H2, H3, H4. reflexivity.
Qed.

(** Some branch is always selected. *)
Lemma selects_total p : exists r, selects r p.
Proof.
  destruct (decide (p = Some "/")); [exists Overview; simpl; auto|].
  destruct (decide (p = Some "/overview")); [exists Overview; simpl; auto|].
  destruct (decide (p = Some "/product")); [exists ProductPage; assumption|].
  destruct (decide (p = Some "/api")); [exists Api; assumption|].
  exists NotFound; simpl; auto.
Qed.

(** No path selects two branches. *)
Lemma selects_unique p r1 r2 : selects r1 p -> selects r2 p -> r1 = r2.
Proof.
  destruct r1, r2; simpl; intros H1 H2; try reflexivity; exfalso;
    repeat match goal with
           | H : _ \/ _ |- _ => destruct H
           | H : _ /\ _ |- _ => destruct H
           end; congruence.
Qed.

(** What each branch answers on a fresh [res]. *)
Lemma respond_api g req :
  pathname req = Some "/api" ->
  respond g req =
    ({| globals := g;
        res := {| statusCode := Some 200;
                  headers := [("content-type", "application/json")];
                  body := Some (data g) |} |}, Normal tt).
Proof.
  intros E. unfold respond. rewrite (handler_branch req Api) by exact E.
  reflexivity.
Qed.

Lemma respond_not_found g req :
  selects NotFound (pathname req) ->
  respond g req =
    ({| globals := g;
        res := {| statusCode := Some 404;
                  headers := [("content-type", "text/html");
                              ("my-own-header", "hello-world")];
                  body := Some "<h1>Page not found</h1>" |} |}, Normal tt).
Proof.
  intros E. unfold respond. rewrite (handler_branch req NotFound) by exact E.
  reflexivity.
Qed.

Lemma respond_product g req :
  pathname req = Some "/product" ->
  respond g req =
    match replaceTemplate (tempProduct g)
            (array_get (dataObj g) (property_key (query req !! "id"))) with
    | Normal output =>
        ({| globals := g;
            res := {| statusCode := Some 200;
                      headers := [("content-type", "text/html")];
                      body := Some output |} |}, Normal tt)
    | Throw e =>
        ({| globals := g;
            res := {| statusCode := Some 200;
                      headers := [("content-type", "text/html")];
                      body := None |} |}, Throw e)
    end.
Proof.
  intros E. unfold respond. rewrite (handler_branch req ProductPage) by exact E.
  cbv [branch product_page mbind M_bind bind writeHead modify global gets call
       end_ globals res fresh body statusCode headers dataObj tempProduct].
  destruct (replaceTemplate _ _); reflexivity.
Qed.

(** The handler reads the module-level constants and never assigns them. *)
Lemma writeHead_preserves status hdrs : preserves globals (writeHead status hdrs).
Proof. intros w. reflexivity. Qed.

Lemma end_preserves output : preserves globals (end_ output).
Proof. intros w. reflexivity. Qed.

Lemma handler_preserves req : preserves globals (handler req).
Proof.
  destruct (selects_total (pathname req)) as [r Hr].
  rewrite (handler_branch req r Hr).
  destruct r; simpl; unfold overview_page, product_page, api_page, not_found_page, global;
    repeat first
      [ apply preserves_bind; [|intros ?]
      | apply writeHead_preserves
      | apply end_preserves
      | apply preserves_gets
      | apply preserves_call
      | apply preserves_mapM; intros ? ].
Qed.

(** A handler that returns has written the status and ended the response. *)
Lemma respond_ends g req :
  snd (respond g req) = Normal tt ->
  is_Some (statusCode (res (fst (respond g req)))) /\
  is_Some (body (res (fst (respond g req)))).
Proof.
  destruct (selects_total (pathname req)) as [r Hr]. destruct r.
  - unfold respond. rewrite (handler_branch req Overview Hr).
    cbn [branch]. unfold overview_page, global.
    cbv [mbind M_bind bind gets writeHead end_ modify]. cbn [globals res fresh].
    destruct (mapM _ _ _) as [w [cards|e]]; cbn; [eauto|discriminate].
  - rewrite (respond_product g req Hr).
    destruct (replaceTemplate _ _); cbn; [eauto|discriminate].
  - rewrite (respond_api g req Hr). cbn. eauto.
  - rewrite (respond_not_found g req Hr). cbn. eauto.
Qed.

(** A request whose target parses is answered by the statements that
    follow line 73. *)
Lemma listener_parsed target req :
  url_parse target = Normal req -> listener target = handler req.
Proof.
  intros E. unfold listener. rewrite E. reflexivity.
Qed.

(** A request whose target the parser refuses leaves the callback at
    line 73, the response untouched. *)
Lemma listener_refused target e w :
  url_parse target = Throw e -> listener target w = (w, Throw e).
Proof.
  intros E. unfold listener. rewrite run_call, E. reflexivity.
Qed.

(** The callback reads the module-level constants and never assigns
    them. *)
Lemma listener_preserves target : preserves globals (listener target).
Proof.
  unfold listener. apply preserves_bind;
    [apply preserves_call|intros req; apply handler_preserves].
Qed.

(** C1, as the code has it: a request whose target [url.parse] refuses
    reaches no branch, the exception leaves the callback with nothing
    written to the response.  For every other request the parsed pathname
    selects exactly one of the four branches (overview for [/] and
    [/overview], product for [/product], api for [/api], not-found for
    everything else, [null] included), by equality with the literal; the
    callback runs the body of that branch, and when it returns the response
    has its status and has been ended. *)
Theorem route_exact_total (target : string) :
  match url_parse target with
  | Throw e =>
      forall g, receive g target = ({| globals := g; res := fresh |}, Throw e)
  | Normal req =>
      (exists! r : Route, selects r (pathname req)) /\
      (forall r : Route, selects r (pathname req) -> listener target = branch r req) /\
      (forall g, receive g target = respond g req) /\
      (forall g, snd (receive g target) = Normal tt ->
         is_Some (statusCode (res (fst (receive g target)))) /\
         is_Some (body (res (fst (receive g target)))))
  end.
Proof.
  destruct (url_parse target) as [req|e] eqn:E.
  - assert (Hr : forall g, receive g target = respond g req).
    { intros g. unfold receive. rewrite (listener_parsed target req E). reflexivity. }
    split; [|split; [|split]].
    + destruct (selects_total (pathname req)) as [r Hr'].
      exists r. split; [exact Hr'|]. intros r' Hr''. eapply selects_unique; eauto.
    + intros r Hsel. rewrite (listener_parsed target req E).
      apply handler_branch. exact Hsel.
    + exact Hr.
    + intros g. rewrite Hr. apply respond_ends.
  - intros g. unfold receive. apply listener_refused. exact E.
Qed.

(** C5: a request whose pathname is none of [/], [/overview], [/product]
    and [/api] is answered with status 404, content type [text/html], the
    header [my-own-header: hello-world] and the body
    [<h1>Page not found</h1>]. *)
Theorem not_found_response (g : Globals) (req : ParsedUrl) :
  pathname req <> Some "/" ->
  pathname req <> Some "/overview" ->
  pathname req <> Some "/product" ->
  pathname req <> Some "/api" ->
  let w := fst (respond g req) in
  snd (respond g req) = Normal tt /\
  statusCode (res w) = Some 404 /\
  headers (res w) = [("content-type", "text/html"); ("my-own-header", "hello-world")] /\
  body (res w) = Some "<h1>Page not found</h1>".
Proof.
  intros H1 H2 H3 H4. cbv zeta.
  rewrite respond_not_found by (simpl; auto).
  simpl. repeat split.
Qed.

(** C10: on [/product] the status 200 and the content type [text/html] are
    written before the lookup and the rendering, so every such request ends
    with them on [res] whatever [id] is, also when the renderer throws;
    the status is never 400 or 404. *)
Theorem product_head_written_first (g : Globals) (req : ParsedUrl) :
  pathname req = Some "/product" ->
  let w := fst (respond g req) in
  statusCode (res w) = Some 200 /\
  headers (res w) = [("content-type", "text/html")] /\
  statusCode (res w) <> Some 400 /\
  statusCode (res w) <> Some 404 /\
  (forall e, snd (respond g req) = Throw e -> body (res w) = None).
Proof.
  intros E. cbv zeta. rewrite respond_product by exact E.
  destruct (replaceTemplate _ _); simpl; repeat split; congruence.
Qed.

(** C9: handling requests never changes the templates, the JSON text or
    the parsed products: after any sequence of requests the module-level
    constants are those of start-up, and every request is answered from
    them. *)
Theorem globals_immutable (g : Globals) (reqs : list ParsedUrl) :
  fst (serve g reqs) = g /\
  (forall req, globals (fst (respond g req)) = g) /\
  (forall n out, snd (serve g reqs) !! n = Some out ->
     exists req, reqs !! n = Some req /\
       out = (res (fst (respond g req)), snd (respond g req))).
Proof.
  assert (Hresp : forall g0 req, globals (fst (respond g0 req)) = g0).
  { intros g0 req. unfold respond. apply (handler_preserves req). }
  split; [|split].
  - revert g. induction reqs as [|req rest IH]; intros g; simpl; [reflexivity|].
    specialize (Hresp g req).
    destruct (respond g req) as [w [u|e]]; simpl in *.
    + rewrite Hresp. specialize (IH g).
      destruct (serve g rest) as [g' out]. exact IH.
    + exact Hresp.
  - apply Hresp.
  - revert g. induction reqs as [|req rest IH]; intros g n out; simpl.
    + intros H. rewrite lookup_nil in H. discriminate.
    + pose proof (Hresp g req) as Hg.
      destruct (respond g req) as [w [u|e]] eqn:Er; simpl in *.
      * rewrite Hg. specialize (IH g).
        destruct (serve g rest) as [g' outs]. simpl in *.
        destruct n as [|n]; simpl.
        -- intros [= <-]. exists req. rewrite Er. auto.
        -- intros H. apply IH in H. exact H.
      * destruct n as [|n]; simpl.
        -- intros [= <-]. exists req. rewrite Er. auto.
        -- intros H. rewrite lookup_nil in H. discriminate.
Qed.

End ServerFacts.

(** ** Strings *)

#[local] Arguments String.append !_ _ / : simpl nomatch.

Lemma length_app (a b : string) :
  String.length (a +:+ b) = (String.length a + String.length b)%nat.
Proof. induction a as [|c a IH]; simpl; [reflexivity|]. rewrite IH. reflexivity. Qed.

Lemma app_assoc (a b c : string) : (a +:+ b) +:+ c = a +:+ (b +:+ c).
Proof. induction a as [|x a IH]; simpl; [reflexivity|]. rewrite IH. reflexivity. Qed.

(** Two paths differ when they extend one directory by different names, or
    when one is too short to contain the name the other ends in. *)
Ltac path_neq :=
  let H := fresh in
  intros H;
  first
    [ apply String.app_inj in H; discriminate H
    | apply (f_equal String.length) in H; rewrite ?length_app in H; simpl in H; lia ].

(** ** Start-up *)

Section StartupFacts.

Variable dirname : string.
Variable JSON_parse : string -> completion (list product).

Local Abbreviation top_level := (top_level dirname JSON_parse).
Local Abbreviation start := (start dirname JSON_parse).
Local Abbreviation top_level_reads := (top_level_reads dirname).
Local Abbreviation after_top_level := (after_top_level dirname).

Lemma run_read {A} path (k : string -> M System A) s :
  (readFileSync path ≫= k) s =
    match files s !! path with
    | Some text => k text s
    | None => (s, Throw (ENOENT path))
    end.
Proof.
  unfold mbind, M_bind, bind, readFileSync. destruct (files s !! path); reflexivity.
Qed.

Lemma run_write {A} path text (k : unit -> M System A) s :
  (writeFileSync path text ≫= k) s =
    k tt {| files := <[path := text]> (files s); console := console s |}.
Proof. reflexivity. Qed.

Lemma run_log {A} msg (k : unit -> M System A) s :
  (console_log msg ≫= k) s =
    k tt {| files := files s; console := console s ++ [msg] |}.
Proof. reflexivity. Qed.

Ltac step_top_level :=
  first
    [ rewrite run_read; cbn [files console];
      rewrite ?lookup_insert_ne by path_neq
    | rewrite run_write; cbn [files console]
    | rewrite run_log; cbn [files console]
    | rewrite run_call ].

(** The top-level statements run to their end exactly when the six files
    can be read and the JSON text parses; the constants are then the
    contents of the files as they were when the process started. *)
Lemma top_level_normal disk s g :
  top_level {| files := disk; console := [] |} = (s, Normal g) <->
  exists textInput textAppend,
    disk !! (dirname +:+ "/txt/input.txt") = Some textInput /\
    disk !! (dirname +:+ "/txt/append.txt") = Some textAppend /\
    disk !! (dirname +:+ "/templates/template-overview.html") = Some (tempOverview g) /\
    disk !! (dirname +:+ "/templates/template-card.html") = Some (tempCard g) /\
    disk !! (dirname +:+ "/templates/template-product.html") = Some (tempProduct g) /\
    disk !! (dirname +:+ "/dev-data/data.json") = Some (data g) /\
    JSON_parse (data g) = Normal (dataObj g) /\
    s = after_top_level disk textInput textAppend.
Proof.
  unfold top_level. split.
  - step_top_level.
    destruct (disk !! (dirname +:+ "/txt/input.txt")) as [ti|]; [|discriminate].
    step_top_level.
    destruct (disk !! (dirname +:+ "/txt/append.txt")) as [ta|]; [|discriminate].
    do 5 step_top_level.
    destruct (disk !! (dirname +:+ "/templates/template-overview.html")) as [tO|];
      [|discriminate].
    step_top_level.
    destruct (disk !! (dirname +:+ "/templates/template-card.html")) as [tC|];
      [|discriminate].
    step_top_level.
    destruct (disk !! (dirname +:+ "/templates/template-product.html")) as [tP|];
      [|discriminate].
    step_top_level.
    destruct (disk !! (dirname +:+ "/dev-data/data.json")) as [d|]; [|discriminate].
    step_top_level.
    destruct (JSON_parse d) as [objs|e] eqn:Ep; [|discriminate].
    intros [= <- <-]. exists ti, ta. simpl. repeat split; assumption.
  - intros (ti & ta & H1 & H2 & H3 & H4 & H5 & H6 & H7 & ->).
    step_top_level. rewrite H1. step_top_level. rewrite H2.
    do 5 step_top_level. rewrite H3. step_top_level. rewrite H4.
    step_top_level. rewrite H5. step_top_level. rewrite H6.
    step_top_level. rewrite H7. destruct g; reflexivity.
Qed.

(** The chain of callbacks, read by read: each read that fails prints
    ["error!"] and ends the chain, and no callback throws. *)
Lemma read_chain_cases s :
  read_chain dirname s =
    match files s !! (dirname +:+ "/txt/start.txt") with
    | None => (logged ["error!"] s, Normal tt)
    | Some name =>
        match files s !! (dirname +:+ "/txt/" +:+ name +:+ ".txt") with
        | None => (logged ["error!"] s, Normal tt)
        | Some text =>
            match files s !! (dirname +:+ "/txt/append.txt") with
            | None => (logged [text; "error!"] s, Normal tt)
            | Some textAppend =>
                ({| files := <[dirname +:+ "/txt/output.txt" :=
                                 text +:+ newline +:+ textAppend]> (files s);
                    console := console s ++ [text; textAppend; "File written!"] |},
                 Normal tt)
            end
        end
    end.
Proof.
  unfold read_chain. unfold readFile at 1.
  destruct (files s !! (dirname +:+ "/txt/start.txt")) as [name|]; [|reflexivity].
  unfold readFile at 1.
  destruct (files s !! (dirname +:+ "/txt/" +:+ name +:+ ".txt")) as [text|];
    [|reflexivity].
  rewrite run_log. unfold readFile. cbn [files].
  destruct (files s !! (dirname +:+ "/txt/append.txt")) as [textAppend|].
  - rewrite run_log. unfold writeFile. rewrite run_write.
    unfold console_log, modify. cbn [files console].
    rewrite <- !(assoc_L (++)). reflexivity.
  - unfold console_log, modify, logged. cbn [files console].
    rewrite <- !(assoc_L (++)). reflexivity.
Qed.

Lemma read_chain_returns s : snd (read_chain dirname s) = Normal tt.
Proof.
  rewrite read_chain_cases.
  destruct (files s !! (dirname +:+ "/txt/start.txt")) as [name|]; [|reflexivity].
  destruct (files s !! (dirname +:+ "/txt/" +:+ name +:+ ".txt")) as [text|];
    [|reflexivity].
  destruct (files s !! (dirname +:+ "/txt/append.txt")); reflexivity.
Qed.

(** The callback of [server.listen] prints its message, then the chain
    runs. *)
Lemma callbacks_run s :
  callbacks dirname s = read_chain dirname (logged ["Listening to local host..."] s).
Proof. unfold callbacks, listening. rewrite run_log. reflexivity. Qed.

Lemma callbacks_return s : snd (callbacks dirname s) = Normal tt.
Proof. rewrite callbacks_run. apply read_chain_returns. Qed.

(** The server listens exactly when the top-level statements return. *)
Lemma start_serving disk s g :
  start disk = Serving s g <->
  exists s0, top_level {| files := disk; console := [] |} = (s0, Normal g) /\
             s = fst (callbacks dirname s0).
Proof.
  unfold start.
  destruct (top_level {| files := disk; console := [] |}) as [s0 [g0|e]].
  - pose proof (callbacks_return s0) as Hc.
    destruct (callbacks dirname s0) as [s1 [[]|e]] eqn:Ec; [|discriminate Hc].
    split.
    + intros [= <- <-]. exists s0. rewrite Ec. split; reflexivity.
    + intros (s2 & [= <- <-] & ->). rewrite Ec. reflexivity.
  - split; [discriminate|]. intros (s1 & [=] & _).
Qed.



End StartupFacts.

(** ** The process: start-up, then requests *)

Section ProcessFacts.

Variable replaceTemplate : string -> value -> completion string.
Variable is_builtin : string -> bool.
Variable dirname : string.
Variable JSON_parse : string -> completion (list product).

(** C2: once the server is up, every request for [/api] is answered with
    status 200, content type [application/json] and, as body, the text that
    [dev-data/data.json] held when the process started: the text itself,
    whatever [JSON.parse] made of it. *)
Theorem api_serves_raw_json (disk : gmap string string) (s : System) (g : Globals)
    (req : ParsedUrl) :
  start dirname JSON_parse disk = Serving s g ->
  pathname req = Some "/api" ->
  disk !! (dirname +:+ "/dev-data/data.json") = Some (data g) /\
  respond replaceTemplate is_builtin g req =
    ({| globals := g;
        res := {| statusCode := Some 200;
                  headers := [("content-type", "application/json")];
                  body := Some (data g) |} |}, Normal tt) /\
  (forall objs,
     body (res (fst (respond replaceTemplate is_builtin
                       {| tempOverview := tempOverview g; tempCard := tempCard g;
                          tempProduct := tempProduct g; data := data g;
                          dataObj := objs |} req))) = Some (data g)).
Proof.
  intros Hs Hp. split; [|split].
  - apply start_serving in Hs as (s0 & Ht & _).
    apply top_level_normal in Ht as (ti & ta & _ & _ & _ & _ & _ & H6 & _).
    exact H6.
  - apply respond_api. exact Hp.
  - intros objs. rewrite respond_api by exact Hp. reflexivity.
Qed.

End ProcessFacts.

(** ** Template rendering *)

Section TemplateFacts.

Import Template.

Lemma prefix_app (pat s : string) : String.prefix pat (pat +:+ s) = true.
Proof.
  induction pat as [|c pat IH]; simpl; [destruct s; reflexivity|].
  destruct (ascii_dec c c); [exact IH|congruence].
Qed.

Lemma replaceAll_from_skip pat rep (u s : string) :
  JS.replaceAll_from (String.length u) pat rep (u +:+ s) =
  JS.replaceAll_from 0 pat rep s.
Proof. induction u as [|c u IH]; simpl; [destruct s; reflexivity|exact IH]. Qed.

(** At a match the replacement is inserted and the scan resumes after it. *)
Lemma replaceAll_match c pat rep s :
  JS.replaceAll (String c pat +:+ s) (String c pat) rep =
  rep +:+ JS.replaceAll s (String c pat) rep.
Proof.
  unfold JS.replaceAll.
  change (String c pat +:+ s) with (String c (pat +:+ s)).
  cbn [JS.replaceAll_from].
  change (String c (pat +:+ s)) with (String c pat +:+ s).
  rewrite prefix_app.
  replace (String.length (String c pat) - 1)%nat with (String.length pat)
    by (simpl; lia).
  rewrite replaceAll_from_skip. reflexivity.
Qed.

(** Where the pattern does not start the scan moves one character on. *)
Lemma replaceAll_step c pat rep s :
  String.prefix pat (String c s) = false ->
  JS.replaceAll (String c s) pat rep = String c (JS.replaceAll s pat rep).
Proof. intros H. unfold JS.replaceAll. cbn [JS.replaceAll_from]. rewrite H. reflexivity. Qed.

Lemma prefix_head_ne a pat c s :
  a <> c -> String.prefix (String a pat) (String c s) = false.
Proof. intros H. simpl. destruct (ascii_dec a c); [contradiction|reflexivity]. Qed.

Lemma plain_tail c s : plain (String c s) = true -> plain s = true.
Proof.
  destruct s as [|d s]; [reflexivity|].
  cbn [plain]. intros H. apply andb_true_iff in H as [_ H]. exact H.
Qed.

Lemma plain_app a b : plain a = true -> plain b = true -> plain (a +:+ b) = true.
Proof.
  induction a as [|c a IH]; intros Ha Hb; [exact Hb|].
  destruct a as [|d a].
  - cbn [plain] in Ha. change (String c "" +:+ b) with (String c b).
    destruct b as [|e b]; cbn [plain]; [exact Ha|].
    apply negb_true_iff in Ha. rewrite Ha. exact Hb.
  - change (String c (String d a) +:+ b) with (String c (String d (a +:+ b))).
    cbn [plain] in Ha |- *. apply andb_true_iff in Ha as [Hcd Ha].
    rewrite Hcd. apply (IH Ha Hb).
Qed.

Lemma plain_join parts :
  Forall (fun s => plain s = true) parts -> plain (JS.join parts) = true.
Proof.
  induction 1 as [|s parts Hs _ IH]; [reflexivity|].
  unfold JS.join. cbn [fold_right]. apply plain_app; assumption.
Qed.

(** Plain text holds no token. *)
Lemma plain_no_occurrence x s :
  plain s = true -> ~ occurs (String "{" (String "%" x)) s.
Proof.
  intros Hp (before & after & ->). revert Hp.
  induction before as [|c before IH].
  - change (plain (String "{" (String "%" (x +:+ after))) = true -> False).
    cbn [plain]. discriminate.
  - intros Hp. apply IH. eapply plain_tail. exact Hp.
Qed.

Lemma braceless_cons c s :
  braceless (String c s) = true <-> c <> "{"%char /\ c <> "%"%char /\ braceless s = true.
Proof.
  cbn [braceless]. rewrite !andb_true_iff, !negb_true_iff, !Ascii.eqb_neq. tauto.
Qed.

(** The inside and the end of a token are plain. *)
Lemma plain_token_tail c name :
  c <> "{"%char -> braceless name = true -> plain (String c (name +:+ "%}")) = true.
Proof.
  revert c. induction name as [|d name IH]; intros c Hc Hn.
  - apply Ascii.eqb_neq in Hc. change (plain (String c "%}") = true).
    cbn [plain]. rewrite Hc. reflexivity.
  - apply braceless_cons in Hn as (Hd & _ & Hn).
    change (plain (String c (String d (name +:+ "%}"))) = true).
    cbn [plain]. apply Ascii.eqb_neq in Hc. rewrite Hc. simpl.
    apply IH; assumption.
Qed.

(** No token starts inside plain text. *)
Lemma plain_no_prefix x c s rest :
  plain (String c s) = true ->
  String.prefix (String "{" (String "%" x)) (String c s +:+ rest) = false.
Proof.
  intros Hp. destruct (ascii_dec "{" c) as [<-|Hc].
  - destruct s as [|d s]; [vm_compute in Hp; discriminate Hp|].
    cbn [plain] in Hp. apply andb_true_iff in Hp as [Hd _].
    rewrite Ascii.eqb_refl in Hd. simpl in Hd. apply negb_true_iff, Ascii.eqb_neq in Hd.
    change (String "{" (String d s) +:+ rest) with (String "{" (String d (s +:+ rest))).
    cbn [String.prefix]. destruct (ascii_dec "{" "{"); [|congruence].
    destruct (ascii_dec "%" d); [congruence|reflexivity].
  - apply prefix_head_ne. exact Hc.
Qed.

(** Plain text is copied by the scan. *)
Lemma replaceAll_plain x rep lit rest :
  plain lit = true ->
  JS.replaceAll (lit +:+ rest) (String "{" (String "%" x)) rep =
  lit +:+ JS.replaceAll rest (String "{" (String "%" x)) rep.
Proof.
  induction lit as [|c lit IH]; intros Hp; [reflexivity|].
  change (String c lit +:+ rest) with (String c (lit +:+ rest)).
  rewrite replaceAll_step.
  - rewrite IH by (eapply plain_tail; exact Hp). reflexivity.
  - apply (plain_no_prefix x c lit rest Hp).
Qed.

(** Two tokens that start at the same place have the same name. *)
Lemma prefix_token_name name name' rest :
  braceless name = true -> braceless name' = true ->
  String.prefix (name +:+ "%}") (name' +:+ "%}" +:+ rest) = true -> name = name'.
Proof.
  revert name'. induction name as [|c name IH]; intros [|d name'] Hn Hn' Hp.
  - reflexivity.
  - apply braceless_cons in Hn' as (_ & Hd & _).
    change (String.prefix (String "%" "}") (String d (name' +:+ "%}" +:+ rest)) = true) in Hp.
    cbn [String.prefix] in Hp. destruct (ascii_dec "%" d); [congruence|discriminate].
  - apply braceless_cons in Hn as (_ & Hc & _).
    change (String.prefix (String c (name +:+ "%}")) (String "%" (String "}" rest)) = true) in Hp.
    cbn [String.prefix] in Hp. destruct (ascii_dec c "%"); [congruence|discriminate].
  - apply braceless_cons in Hn as (_ & _ & Hn).
    apply braceless_cons in Hn' as (_ & _ & Hn').
    change (String.prefix (String c (name +:+ "%}"))
              (String d (name' +:+ "%}" +:+ rest)) = true) in Hp.
    cbn [String.prefix] in Hp. destruct (ascii_dec c d) as [->|]; [|discriminate].
    f_equal. apply (IH name' Hn Hn' Hp).
Qed.

(** A token with another name is copied by the scan. *)
Lemma replaceAll_other_token name name' rep rest :
  braceless name = true -> braceless name' = true -> name <> name' ->
  JS.replaceAll (("{%" +:+ name' +:+ "%}") +:+ rest) ("{%" +:+ name +:+ "%}") rep =
  ("{%" +:+ name' +:+ "%}") +:+ JS.replaceAll rest ("{%" +:+ name +:+ "%}") rep.
Proof.
  intros Hn Hn' Hne.
  change ("{%" +:+ name +:+ "%}") with (String "{" (String "%" (name +:+ "%}"))).
  change (("{%" +:+ name' +:+ "%}") +:+ rest)
    with (String "{" (String "%" (name' +:+ "%}") +:+ rest)).
  change (("{%" +:+ name' +:+ "%}") +:+ JS.replaceAll rest (String "{" (String "%" (name +:+ "%}"))) rep)
    with (String "{" (String "%" (name' +:+ "%}") +:+
            JS.replaceAll rest (String "{" (String "%" (name +:+ "%}"))) rep)).
  rewrite replaceAll_step.
  - rewrite replaceAll_plain; [reflexivity|].
    apply plain_token_tail; [discriminate|exact Hn'].
  - change (String "%" (name' +:+ "%}") +:+ rest)
      with (String "%" ((name' +:+ "%}") +:+ rest)).
    cbn [String.prefix]. destruct (ascii_dec "{" "{"); [|congruence].
    destruct (ascii_dec "%" "%"); [|congruence].
    destruct (String.prefix (name +:+ "%}") ((name' +:+ "%}") +:+ rest)) eqn:Hp;
      [|reflexivity].
    exfalso. apply Hne. apply (prefix_token_name name name' rest Hn Hn').
    rewrite <- app_assoc. exact Hp.
Qed.

Lemma template_of_cons seg segs :
  template_of (seg :: segs) = segment_text seg +:+ template_of segs.
Proof. reflexivity. Qed.

Lemma template_ok_cons seg segs :
  template_ok (seg :: segs) = true <->
  match seg with
  | Lit s => plain s = true
  | Tok f => braceless (JS.toUpperCase f) = true
  end /\ template_ok segs = true.
Proof.
  unfold template_ok. cbn [forallb]. rewrite andb_true_iff. destruct seg; reflexivity.
Qed.

(** One replacement on a well-formed template rewrites exactly the tokens
    of that name. *)
Lemma replaceAll_template name rep segs :
  braceless name = true -> template_ok segs = true ->
  JS.replaceAll (template_of segs) ("{%" +:+ name +:+ "%}") rep =
  template_of (map (subst1 name rep) segs).
Proof.
  intros Hn. induction segs as [|seg segs IH]; intros Hok; [reflexivity|].
  apply template_ok_cons in Hok as [Hseg Hok].
  cbn [map]. rewrite !template_of_cons. destruct seg as [s|f]; cbn [segment_text subst1].
  - change ("{%" +:+ name +:+ "%}") with (String "{" (String "%" (name +:+ "%}"))) in *.
    rewrite replaceAll_plain by exact Hseg. rewrite IH by exact Hok. reflexivity.
  - unfold placeholder. destruct (String.eqb_spec name (JS.toUpperCase f)) as [<-|Hne].
    + cbn [segment_text].
      change ("{%" +:+ name +:+ "%}") with (String "{" (String "%" (name +:+ "%}"))) in *.
      rewrite replaceAll_match. rewrite IH by exact Hok. reflexivity.
    + cbn [segment_text]. unfold placeholder.
      rewrite replaceAll_other_token by assumption.
      rewrite IH by exact Hok. reflexivity.
Qed.

Lemma subst1_ok name rep segs :
  plain rep = true -> template_ok segs = true ->
  template_ok (map (subst1 name rep) segs) = true.
Proof.
  intros Hr. induction segs as [|seg segs IH]; intros Hok; [reflexivity|].
  apply template_ok_cons in Hok as [Hseg Hok]. cbn [map].
  apply template_ok_cons. split; [|apply IH; exact Hok].
  destruct seg as [s|f]; cbn [subst1]; [exact Hseg|].
  destruct (String.eqb name (JS.toUpperCase f)); assumption.
Qed.

Lemma record_ok_cons k v p :
  record_ok ((k, v) :: p) = true <->
  braceless (JS.toUpperCase k) = true /\ plain (to_text v) = true /\ record_ok p = true.
Proof. unfold record_ok. cbn [forallb]. rewrite !andb_true_iff. tauto. Qed.

(** The loop of [replaceTemplate] on a well-formed template, segment by
    segment. *)
Lemma replaceTemplate_segments p segs :
  record_ok p = true -> template_ok segs = true ->
  replaceTemplate (template_of segs) p =
  template_of
    (fold_left (fun segs '(k, v) => map (subst1 (JS.toUpperCase k) (to_text v)) segs)
       p segs).
Proof.
  revert segs. induction p as [|[k v] p IH]; intros segs Hp Hs; [reflexivity|].
  apply record_ok_cons in Hp as (Hk & Hv & Hp).
  unfold replaceTemplate in *. cbn [fold_left]. unfold placeholder at 2.
  rewrite replaceAll_template by assumption.
  apply IH; [exact Hp|]. apply subst1_ok; assumption.
Qed.

Lemma fill_subst1 k v p seg :
  fill p (subst1 (JS.toUpperCase k) (to_text v) seg) = fill ((k, v) :: p) seg.
Proof.
  destruct seg as [s|f]; [reflexivity|]. cbn [subst1 fill field_for].
  destruct (String.eqb (JS.toUpperCase k) (JS.toUpperCase f)); reflexivity.
Qed.

Lemma segments_fill p segs :
  template_of
    (fold_left (fun segs '(k, v) => map (subst1 (JS.toUpperCase k) (to_text v)) segs)
       p segs) =
  JS.join (map (fill p) segs).
Proof.
  revert segs. induction p as [|[k v] p IH]; intros segs.
  - reflexivity.
  - cbn [fold_left]. rewrite IH, map_map. f_equal. apply map_ext.
    intros seg. apply fill_subst1.
Qed.

Lemma field_for_plain f p v :
  record_ok p = true -> field_for f p = Some v -> plain (to_text v) = true.
Proof.
  induction p as [|[k w] p IH]; intros Hp Hf; [discriminate Hf|].
  apply record_ok_cons in Hp as (_ & Hw & Hp). cbn [field_for] in Hf.
  destruct (String.eqb (JS.toUpperCase k) (JS.toUpperCase f)).
  - injection Hf as <-. exact Hw.
  - apply IH; assumption.
Qed.

(** The first field of the record whose token is that of [f] gives the
    value of [f]. *)
Lemma field_for_first f k v (before after : product) :
  (forall k' v', (k', v') ∈ before -> JS.toUpperCase k' <> JS.toUpperCase f) ->
  JS.toUpperCase k = JS.toUpperCase f ->
  field_for f (before ++ (k, v) :: after)%list = Some v.
Proof.
  intros Hb Hk. induction before as [|[k' v'] before IH]; cbn [app field_for].
  - rewrite (proj2 (String.eqb_eq _ _)) by exact Hk. reflexivity.
  - destruct (String.eqb_spec (JS.toUpperCase k') (JS.toUpperCase f)) as [E|_].
    + exfalso. apply (Hb k' v'); [apply elem_of_cons; left; reflexivity|exact E].
    + apply IH. intros k2 v2 H. apply (Hb k2 v2). apply elem_of_cons. right. exact H.
Qed.

Lemma field_for_absent f (p : product) :
  (forall k v, (k, v) ∈ p -> JS.toUpperCase k <> JS.toUpperCase f) ->
  field_for f p = None.
Proof.
  induction p as [|[k v] p IH]; intros H; [reflexivity|]. cbn [field_for].
  destruct (String.eqb_spec (JS.toUpperCase k) (JS.toUpperCase f)) as [E|_].
  - exfalso. apply (H k v); [apply elem_of_cons; left; reflexivity|exact E].
  - apply IH. intros k2 v2 Hin. apply (H k2 v2). apply elem_of_cons. right. exact Hin.
Qed.

Lemma field_for_NoDup (p : product) k v :
  NoDup (map (fun kv => JS.toUpperCase kv.1) p) ->
  (k, v) ∈ p -> field_for k p = Some v.
Proof.
  intros Hnd Hin. apply list_elem_of_split in Hin as (before & after & ->).
  apply field_for_first; [|reflexivity].
  intros k' v' Hin' E. rewrite map_app in Hnd.
  apply NoDup_app in Hnd as (_ & Hdis & _).
  apply (Hdis (JS.toUpperCase k')).
  - apply (list_elem_of_fmap_2 (fun kv => JS.toUpperCase kv.1) _ (k', v')).
    exact Hin'.
  - cbn [map fst]. rewrite E. apply elem_of_cons. left. reflexivity.
Qed.

(** C6, as the renderer allows it.  On a record whose tokens hold no [{]
    or [%] and whose values have plain text, and a template made of such
    tokens and of plain text, rendering returns the template with every
    token of a field replaced by the text of a value and every other token
    left as it is; and when every token of the template names a field of
    the record the output holds no token at all.  The value that replaces a
    token is that of the first field of the record, in its order, whose name
    in upper case is the name in the token; when the names of the record are
    distinct in upper case, every field replaces its own token by its own
    value; a token whose name is that of no field in upper case is left as
    it is. *)
Theorem replaceTemplate_fills_tokens (temp : list segment) (p : product) :
  record_ok p = true ->
  template_ok temp = true ->
  replaceTemplate (template_of temp) p = JS.join (map (fill p) temp) /\
  ((forall f, Tok f ∈ temp -> is_Some (field_for f p)) ->
   forall k, ~ occurs (placeholder k) (replaceTemplate (template_of temp) p)) /\
  (forall f k v (before after : product),
     p = (before ++ (k, v) :: after)%list ->
     (forall k' v', (k', v') ∈ before ->
        JS.toUpperCase k' <> JS.toUpperCase f) ->
     JS.toUpperCase k = JS.toUpperCase f ->
     fill p (Tok f) = to_text v) /\
  (NoDup (map (fun kv => JS.toUpperCase kv.1) p) ->
   forall k v, (k, v) ∈ p -> fill p (Tok k) = to_text v) /\
  (forall f,
     (forall k v, (k, v) ∈ p -> JS.toUpperCase k <> JS.toUpperCase f) ->
     fill p (Tok f) = placeholder f).
Proof.
  intros Hp Ht.
  assert (E : replaceTemplate (template_of temp) p = JS.join (map (fill p) temp)).
  { rewrite replaceTemplate_segments by assumption. apply segments_fill. }
  split; [exact E|].
  split; [|split; [|split]];
    [|intros f k v before after -> Hb Hk; cbn [fill];
      rewrite (field_for_first f k v before after Hb Hk); reflexivity
     |intros Hnd k v Hin; cbn [fill];
      rewrite (field_for_NoDup p k v Hnd Hin); reflexivity
     |intros f Hf; cbn [fill]; rewrite (field_for_absent f p Hf); reflexivity].
  intros Hall k. rewrite E. unfold placeholder.
  change ("{%" +:+ JS.toUpperCase k +:+ "%}")
    with (String "{" (String "%" (JS.toUpperCase k +:+ "%}"))).
  apply plain_no_occurrence. apply plain_join.
  apply Forall_forall. intros s Hs.
  apply (list_elem_of_fmap (fill p)) in Hs as (seg & -> & Hseg).
  destruct seg as [lit|f]; cbn [fill].
  - clear -Ht Hseg. induction temp as [|seg temp IH]; [inversion Hseg|].
    apply template_ok_cons in Ht as [H1 H2].
    apply elem_of_cons in Hseg as [<-|Hseg]; [exact H1|apply IH; assumption].
  - destruct (Hall f Hseg) as [v Hv]. rewrite Hv.
    eapply field_for_plain; eassumption.
Qed.

End TemplateFacts.

(** ** The overview page *)

Section OverviewFacts.

Variable replaceTemplate : string -> value -> completion string.
Variable is_builtin : string -> bool.

Lemma prefix_slice pat s :
  String.prefix pat s = true -> s = pat +:+ JS.slice (String.length pat) s.
Proof.
  revert s. induction pat as [|c pat IH]; intros s H; [reflexivity|].
  destruct s as [|d s]; [discriminate H|].
  cbn [String.prefix] in H. destruct (ascii_dec c d) as [->|]; [|discriminate H].
  cbn [String.length JS.slice]. simpl. f_equal. apply IH. exact H.
Qed.

(** [search] splits the text around an occurrence of the pattern. *)
Lemma search_sound pat s before after :
  JS.search pat s = Some (before, after) -> s = before +:+ pat +:+ after.
Proof.
  revert before. induction s as [|c s IH]; intros before.
  - cbn [JS.search]. destruct (String.prefix pat "") eqn:Hp; [|discriminate].
    intros [= <- <-]. apply (prefix_slice pat "" Hp).
  - cbn [JS.search]. destruct (String.prefix pat (String c s)) eqn:Hp.
    + intros [= <- <-]. apply (prefix_slice pat _ Hp).
    + destruct (JS.search pat s) as [[b a]|]; [|discriminate].
      intros [= <- <-]. simpl. f_equal. apply IH. reflexivity.
Qed.

(** Replacement text without a dollar sign is inserted as it is. *)
Lemma GetSubstitution_dollar_free matched before after text :
  JS.dollar_free text = true ->
  JS.GetSubstitution matched before after text = text.
Proof.
  induction text as [|c text IH]; [reflexivity|].
  cbn [JS.dollar_free JS.GetSubstitution]. intros H.
  apply andb_true_iff in H as [Hc Ht]. apply negb_true_iff in Hc.
  rewrite Hc. f_equal. apply IH. exact Ht.
Qed.

Lemma mapM_call {S A B} (f : A -> completion B) xs ys (s : S) :
  Forall2 (fun x y => f x = Normal y) xs ys ->
  mapM (fun x => call (f x)) xs s = (s, Normal ys).
Proof.
  induction 1 as [|x y xs ys Hxy _ IH]; [reflexivity|].
  cbn [mapM]. rewrite run_call, Hxy. rewrite (bind_normal _ _ _ _ _ IH).
  reflexivity.
Qed.

(** The overview page when every card renders and the cards hold no dollar
    sign: the first [{%PRODUCT_CARDS%}] of the overview template is replaced
    by the cards, joined in the order of [dataObj]. *)
Lemma overview_without_dollar g req cards before after :
  pathname req = Some "/" \/ pathname req = Some "/overview" ->
  Forall2 (fun el text => replaceTemplate (tempCard g) (VProduct el) = Normal text)
    (dataObj g) cards ->
  JS.search "{%PRODUCT_CARDS%}" (tempOverview g) = Some (before, after) ->
  JS.dollar_free (JS.join cards) = true ->
  tempOverview g = before +:+ "{%PRODUCT_CARDS%}" +:+ after /\
  respond replaceTemplate is_builtin g req =
    ({| globals := g;
        res := {| statusCode := Some 200;
                  headers := [("content-type", "text/html")];
                  body := Some (before +:+ JS.join cards +:+ after) |} |}, Normal tt).
Proof.
  intros Hp Hcards Hs Hd. split; [apply search_sound; exact Hs|].
  unfold respond. rewrite (handler_branch _ _ req Overview) by exact Hp.
  cbn [branch]. unfold overview_page, global.
  cbv [mbind M_bind bind gets]. cbn [globals].
  rewrite (mapM_call _ _ _ _ Hcards).
  cbv [writeHead end_ modify]. cbn [globals res statusCode headers body fresh].
  unfold JS.replace. rewrite Hs, GetSubstitution_dollar_free by exact Hd.
  reflexivity.
Qed.

End OverviewFacts.

(** ** The sample farm *)

(** C1, where the code departs from it: a request whose target is
    [http://%@localhost/] reaches none of the four branches.  [url.parse]
    throws on line 73, before the pathname is compared with anything; the
    exception is not caught, and the response is left without status,
    header and body. *)
Lemma undecodable_target_reaches_no_branch :
  let target := "http://%@localhost/" in
  let answer :=
    receive Template.render Sample.no_builtin Sample.url_parse Sample.farm
      target in
  Sample.url_parse target = Throw "URIError: URI malformed" /\
  answer = ({| globals := Sample.farm; res := fresh |},
            Throw "URIError: URI malformed") /\
  statusCode (res (fst answer)) = None /\
  headers (res (fst answer)) = [] /\
  body (res (fst answer)) = None.
Proof. vm_compute. repeat split. Qed.

(** A target that [url.parse] accepts is answered by the branch of its
    pathname. *)
Example parsed_target_is_routed :
  receive Template.render Sample.no_builtin Sample.url_parse Sample.farm
    "/product?id=0" =
  respond Template.render Sample.no_builtin Sample.farm
    (Sample.get "/product" (Some "0")) /\
  statusCode (res (fst (receive Template.render Sample.no_builtin
                          Sample.url_parse Sample.farm "/api?x=1"))) = Some 200 /\
  statusCode (res (fst (receive Template.render Sample.no_builtin
                          Sample.url_parse Sample.farm "/api/"))) = Some 404.
Proof. vm_compute. repeat split. Qed.

(** C3, where the code departs from it: the one card of the sample farm is
    [<p>Apples: 6.50 <small>$$</small></p>], and the overview page shows
    [<p>Apples: 6.50 <small>$</small></p>], because
    [String.prototype.replace] reads [$$] in the replacement text as one
    dollar sign. *)
Theorem overview_expands_dollar_patterns :
  let cards :=
    JS.join (map (Template.replaceTemplate (tempCard Sample.farm))
               (dataObj Sample.farm)) in
  let answer :=
    respond Template.render Sample.no_builtin Sample.farm
      (Sample.get "/overview" None) in
  cards = "<p>Apples: 6.50 <small>$$</small></p>" /\
  tempOverview Sample.farm = "<main>" +:+ "{%PRODUCT_CARDS%}" +:+ "</main>" /\
  statusCode (res (fst answer)) = Some 200 /\
  headers (res (fst answer)) = [("content-type", "text/html")] /\
  body (res (fst answer)) = Some "<main><p>Apples: 6.50 <small>$</small></p></main>" /\
  body (res (fst answer)) <> Some ("<main>" +:+ cards +:+ "</main>").
Proof. vm_compute. repeat split. discriminate. Qed.

(** The premises of [api_serves_raw_json] hold for the sample farm. *)
Lemma api_serves_raw_json_witness :
  start "/app" Sample.parse Sample.disk = Serving Sample.booted Sample.farm /\
  pathname (Sample.get "/api" None) = Some "/api" /\
  Sample.disk !! "/app/dev-data/data.json" = Some Sample.apples_json /\
  body (res (fst (respond Template.render Sample.no_builtin Sample.farm
                    (Sample.get "/api" None)))) = Some Sample.apples_json.
Proof.
  assert (Hs : start "/app" Sample.parse Sample.disk
               = Serving Sample.booted Sample.farm) by (vm_compute; reflexivity).
  split; [exact Hs|]. split; [reflexivity|].
  destruct (api_serves_raw_json Template.render Sample.no_builtin "/app"
              Sample.parse Sample.disk Sample.booted Sample.farm
              (Sample.get "/api" None) Hs eq_refl) as (Hd & Hr & _).
  split; [exact Hd|]. rewrite Hr. reflexivity.
Defined.

(** [/product?id=banana] on the sample farm is answered with status 200. *)
Lemma product_head_written_first_witness :
  pathname (Sample.get "/product" (Some "banana")) = Some "/product" /\
  statusCode (res (fst (respond Template.render Sample.no_builtin Sample.farm
                          (Sample.get "/product" (Some "banana"))))) = Some 200.
Proof.
  split; [reflexivity|].
  apply (product_head_written_first Template.render Sample.no_builtin Sample.farm
           (Sample.get "/product" (Some "banana")) eq_refl).
Defined.

(** [/does-not-exist] on the sample farm is answered with status 404. *)
Lemma not_found_response_witness :
  let req := Sample.get "/does-not-exist" None in
  (pathname req <> Some "/" /\ pathname req <> Some "/overview" /\
   pathname req <> Some "/product" /\ pathname req <> Some "/api") /\
  statusCode (res (fst (respond Template.render Sample.no_builtin Sample.farm req)))
    = Some 404.
Proof.
  assert (H : forall lit, lit <> "/does-not-exist" ->
                pathname (Sample.get "/does-not-exist" None) <> Some lit).
  { intros lit Hl [= E]. apply Hl. symmetry. exact E. }
  cbv zeta. split.
  - repeat split; apply H; discriminate.
  - apply (not_found_response Template.render Sample.no_builtin Sample.farm
             (Sample.get "/does-not-exist" None));
      apply H; discriminate.
Defined.

(** The card of the sample farm filled with its one product. *)
Lemma replaceTemplate_fills_tokens_witness :
  Template.record_ok Sample.apples = true /\
  Template.template_ok Sample.card = true /\
  Template.replaceTemplate (Template.template_of Sample.card) Sample.apples =
    "<p>Apples: 6.50 <small>$$</small></p>".
Proof.
  split; [reflexivity|]. split; [reflexivity|].
  rewrite (proj1 (replaceTemplate_fills_tokens Sample.card Sample.apples
                    eq_refl eq_refl)).
  reflexivity.
Defined.

(** A value whose text is a token: the token is in the output although the
    only token of the template names a field of the record. *)
Lemma value_text_brings_token :
  let p : product := [("a", FString "{%A%}")] in
  let temp := [Template.Tok "a"] in
  (forall f, Template.Tok f ∈ temp -> is_Some (Template.field_for f p)) /\
  Template.replaceTemplate (Template.template_of temp) p = "{%A%}" /\
  Template.occurs (Template.placeholder "a")
    (Template.replaceTemplate (Template.template_of temp) p).
Proof.
  cbv zeta. split; [|split].
  - intros f Hf. apply list_elem_of_singleton in Hf. injection Hf as ->.
    eexists. reflexivity.
  - reflexivity.
  - exists "", "". reflexivity.
Qed.

(** Two fields whose names agree in upper case share one token: the first
    of them in the record gives the value, the other is not used. *)
Example colliding_names_first_wins :
  Template.replaceTemplate "{%A%}"
    [("a", FString "1"); ("A", FString "2")] = "1" /\
  Template.replaceTemplate "{%A%}"
    [("A", FString "2"); ("a", FString "1")] = "2".
Proof. split; reflexivity. Qed.

(** The text of values that are not strings. *)
Example text_of_values :
  Template.replaceTemplate "{%N%} {%ORGANIC%} {%NOTE%} {%PRICE%}"
    [("n", FNumber (-12) eq_refl); ("organic", FBool true); ("note", FNull);
     ("price", FOther "6.5")] = "-12 true null 6.5".
Proof. reflexivity. Qed.

(** Text around a token can close up into a token once the inner one is
    replaced. *)
Example joined_text_forms_token :
  Template.replaceTemplate "{%{%A%}A%}" [("a", FString "")] = "{%A%}".
Proof. reflexivity. Qed.


(** A process that cannot read a template ends at that statement. *)
Example missing_template_is_fatal :
  exists s,
    start "/app" Sample.parse (delete "/app/templates/template-card.html" Sample.disk)
    = Crashed s (ENOENT "/app/templates/template-card.html") /\
    console s = ["Text written!"; "Final text written!"].
Proof. eexists. split; vm_compute; reflexivity. Qed.

(** * Further properties *)

(** ** Searching a text *)

Lemma search_unfold pat s :
  JS.search pat s =
    if String.prefix pat s then Some (EmptyString, JS.slice (String.length pat) s)
    else match s with
         | EmptyString => None
         | String c s' =>
             match JS.search pat s' with
             | Some (before, after) => Some (String c before, after)
             | None => None
             end
         end.
Proof. destruct s; reflexivity. Qed.

Lemma slice_app pat rest : JS.slice (String.length pat) (pat +:+ rest) = rest.
Proof. induction pat as [|c pat IH]; simpl; [destruct rest; reflexivity|exact IH]. Qed.

Lemma prefix_occurs pat s :
  String.prefix pat s = true -> Template.occurs pat s.
Proof.
  intros H. exists EmptyString, (JS.slice (String.length pat) s).
  apply (prefix_slice pat s H).
Qed.

(** [search] finds the occurrence that starts first. *)
Lemma search_first pat before after :
  (forall before' after', before +:+ pat +:+ after = before' +:+ pat +:+ after' ->
     (String.length before <= String.length before')%nat) ->
  JS.search pat (before +:+ pat +:+ after) = Some (before, after).
Proof.
  induction before as [|c before IH]; intros Hfirst; rewrite search_unfold.
  - change ("" +:+ pat +:+ after) with (pat +:+ after).
    rewrite prefix_app, slice_app. reflexivity.
  - destruct (String.prefix pat (String c before +:+ pat +:+ after)) eqn:Hp.
    + apply prefix_slice in Hp.
      specialize (Hfirst EmptyString _ Hp). simpl in Hfirst. lia.
    + change (String c before +:+ pat +:+ after)
        with (String c (before +:+ pat +:+ after)).
      cbv beta iota. rewrite IH; [reflexivity|].
      intros b' a' E.
      specialize (Hfirst (String c b') a'). simpl in Hfirst.
      rewrite E in Hfirst. specialize (Hfirst eq_refl). lia.
Qed.

Lemma search_leftmost pat s before after :
  JS.search pat s = Some (before, after) ->
  forall before' after', s = before' +:+ pat +:+ after' ->
    (String.length before <= String.length before')%nat.
Proof.
  revert before. induction s as [|c s IH]; intros before; rewrite search_unfold.
  - destruct (String.prefix pat ""); [|discriminate].
    intros [= <- <-] b' a' _. simpl. lia.
  - destruct (String.prefix pat (String c s)) eqn:Hp.
    + intros [= <- <-] b' a' _. simpl. lia.
    + destruct (JS.search pat s) as [[b0 a0]|] eqn:Hs; [|discriminate].
      intros [= <- <-] b' a' E. destruct b' as [|c' b'].
      * change ("" +:+ pat +:+ a') with (pat +:+ a') in E.
        rewrite E, prefix_app in Hp. discriminate Hp.
      * simpl in E. injection E as _ E. simpl.
        specialize (IH b0 eq_refl b' a' E). lia.
Qed.

Lemma search_none pat s :
  JS.search pat s = None <-> ~ Template.occurs pat s.
Proof.
  induction s as [|c s IH]; rewrite search_unfold.
  - destruct (String.prefix pat "") eqn:Hp.
    + split; [discriminate|]. intros H. destruct H. apply prefix_occurs. exact Hp.
    + split; [|reflexivity]. intros _ (b & a & E).
      destruct b; [|discriminate E].
      change ("" +:+ pat +:+ a) with (pat +:+ a) in E.
      rewrite E, prefix_app in Hp. discriminate Hp.
  - destruct (String.prefix pat (String c s)) eqn:Hp.
    + split; [discriminate|]. intros H. destruct H. apply prefix_occurs. exact Hp.
    + split.
      * intros Hs (b & a & E). destruct b as [|c' b].
        -- change ("" +:+ pat +:+ a) with (pat +:+ a) in E.
           rewrite E, prefix_app in Hp. discriminate Hp.
        -- simpl in E. injection E as _ E.
           destruct (JS.search pat s) as [[b0 a0]|]; [discriminate Hs|].
           apply (proj1 IH eq_refl). exists b, a. exact E.
      * intros Hn. destruct (JS.search pat s) as [[b0 a0]|] eqn:Hs; [|reflexivity].
        exfalso. apply Hn. apply search_sound in Hs.
        exists (String c b0), a0. simpl. f_equal. exact Hs.
Qed.

(** ** More on the overview page *)

Section OverviewExtras.

Variable replaceTemplate : string -> value -> completion string.
Variable is_builtin : string -> bool.

Local Abbreviation respond := (respond replaceTemplate is_builtin).

Lemma mapM_call_throw {S A B} (f : A -> completion B) done x rest e (s : S) :
  Forall (fun d => exists y, f d = Normal y) done ->
  f x = Throw e ->
  mapM (fun x => call (f x)) (done ++ x :: rest) s = (s, Throw e).
Proof.
  intros Hdone Hx. induction Hdone as [|d done [y Hd] _ IH]; cbn [app mapM].
  - rewrite run_call, Hx. reflexivity.
  - rewrite run_call, Hd. unfold mbind, M_bind, bind in *. rewrite IH. reflexivity.
Qed.

(** The overview page in terms of the loop over the products. *)
Lemma respond_overview g req :
  pathname req = Some "/" \/ pathname req = Some "/overview" ->
  respond g req =
    match mapM (fun el => call (replaceTemplate (tempCard g) (VProduct el)))
            (dataObj g) {| globals := g; res := fresh |} with
    | (w, Normal cards) =>
        answered (globals w) 200 [("content-type", "text/html")]
          (JS.replace (tempOverview (globals w)) "{%PRODUCT_CARDS%}" (JS.join cards))
    | (w, Throw e) => (w, Throw e)
    end.
Proof.
  intros Hp. unfold respond.
  rewrite (handler_branch _ _ req Overview) by exact Hp.
  cbn [branch]. unfold overview_page, global.
  cbv [mbind M_bind bind gets]. cbn [globals].
  destruct (mapM _ _ _) as [w [cards|e]]; reflexivity.
Qed.

(** X1: on the overview route, when every card renders and the cards hold
    no dollar sign, the answer is 200 [text/html] and its body is the
    overview template with the first [{%PRODUCT_CARDS%}] replaced by the
    cards joined in the order of [dataObj]; whatever follows that first
    placeholder, later placeholders included, is sent as it is. *)
Theorem overview_replaces_first_placeholder (g : Globals) (req : ParsedUrl)
    (cards : list string) (before after : string) :
  pathname req = Some "/" \/ pathname req = Some "/overview" ->
  Forall2 (fun el text => replaceTemplate (tempCard g) (VProduct el) = Normal text)
    (dataObj g) cards ->
  tempOverview g = before +:+ "{%PRODUCT_CARDS%}" +:+ after ->
  (forall before' after',
     tempOverview g = before' +:+ "{%PRODUCT_CARDS%}" +:+ after' ->
     (String.length before <= String.length before')%nat) ->
  JS.dollar_free (JS.join cards) = true ->
  respond g req =
    answered g 200 [("content-type", "text/html")]
      (before +:+ JS.join cards +:+ after).
Proof.
  intros Hp Hcards Ht Hfirst Hd.
  apply (overview_without_dollar replaceTemplate is_builtin g req cards before after
           Hp Hcards); [|exact Hd].
  rewrite Ht. apply search_first. rewrite <- Ht. exact Hfirst.
Qed.

(** X2: on the overview route, when the overview template holds no
    [{%PRODUCT_CARDS%}] and every card renders, the body is the template as
    it is and the cards are dropped. *)
Theorem overview_without_placeholder (g : Globals) (req : ParsedUrl)
    (cards : list string) :
  pathname req = Some "/" \/ pathname req = Some "/overview" ->
  Forall2 (fun el text => replaceTemplate (tempCard g) (VProduct el) = Normal text)
    (dataObj g) cards ->
  ~ Template.occurs "{%PRODUCT_CARDS%}" (tempOverview g) ->
  respond g req = answered g 200 [("content-type", "text/html")] (tempOverview g).
Proof.
  intros Hp Hcards Hn. rewrite (respond_overview g req Hp).
  rewrite (mapM_call _ _ _ _ Hcards). cbn [globals].
  unfold JS.replace. rewrite (proj2 (search_none _ _) Hn). reflexivity.
Qed.

(** X3: on the overview route the cards are rendered before anything is
    written to the response: when the renderer throws for a product, the
    exception escapes the handler and the response has no status, no header
    and no body. *)
Theorem overview_render_failure (g : Globals) (req : ParsedUrl)
    (done rest : list product) (el : product) (e : exn) :
  pathname req = Some "/" \/ pathname req = Some "/overview" ->
  dataObj g = (done ++ el :: rest)%list ->
  Forall (fun d => exists text, replaceTemplate (tempCard g) (VProduct d) = Normal text)
    done ->
  replaceTemplate (tempCard g) (VProduct el) = Throw e ->
  respond g req = ({| globals := g; res := fresh |}, Throw e).
Proof.
  intros Hp Hd Hdone He. rewrite (respond_overview g req Hp), Hd.
  rewrite (mapM_call_throw (fun el => replaceTemplate (tempCard g) (VProduct el))
             done el rest e _ Hdone He).
  reflexivity.
Qed.

(** X4: on the overview route with no product loaded the renderer is not
    called: the body is the overview template with its first
    [{%PRODUCT_CARDS%}] removed, or the template itself when it holds
    none. *)
Theorem overview_of_empty_farm (g : Globals) (req : ParsedUrl) :
  pathname req = Some "/" \/ pathname req = Some "/overview" ->
  dataObj g = [] ->
  (forall before after,
     tempOverview g = before +:+ "{%PRODUCT_CARDS%}" +:+ after ->
     (forall before' after',
        tempOverview g = before' +:+ "{%PRODUCT_CARDS%}" +:+ after' ->
        (String.length before <= String.length before')%nat) ->
     respond g req =
       answered g 200 [("content-type", "text/html")] (before +:+ after)) /\
  (~ Template.occurs "{%PRODUCT_CARDS%}" (tempOverview g) ->
   respond g req = answered g 200 [("content-type", "text/html")] (tempOverview g)).
Proof.
  intros Hp Hd. rewrite (respond_overview g req Hp), Hd. cbn [mapM].
  unfold mret, M_ret, ret. cbn [globals JS.join fold_right]. unfold JS.replace.
  split.
  - intros before after Ht Hfirst. rewrite Ht, search_first.
    + reflexivity.
    + rewrite <- Ht. exact Hfirst.
  - intros Hn. rewrite (proj2 (search_none _ _) Hn). reflexivity.
Qed.

End OverviewExtras.

(** ** Array indices *)

Lemma digits_value_acc d acc :
  JS.digits_value (N.pos acc) (NilEmpty.string_of_uint d) =
  Some (N.pos (Pos.of_uint_acc d acc)).
Proof.
  revert acc. induction d as [|d IH|d IH|d IH|d IH|d IH|d IH|d IH|d IH|d IH|d IH];
    intros acc; [reflexivity|..];
    cbn [NilEmpty.string_of_uint JS.digits_value Pos.of_uint_acc];
    match goal with
    | |- context [JS.is_digit ?c] => change (JS.is_digit c) with true
    end;
    cbv iota; rewrite <- IH; f_equal; vm_compute N_of_ascii; lia.
Qed.

(** The digits of a number are read back as that number. *)
Lemma digits_value_of_uint d :
  JS.digits_value 0 (NilEmpty.string_of_uint d) = Some (N.of_uint d).
Proof.
  induction d as [|d IH|d IH|d IH|d IH|d IH|d IH|d IH|d IH|d IH|d IH];
    [reflexivity|exact IH|..];
    cbn [NilEmpty.string_of_uint JS.digits_value];
    match goal with
    | |- context [JS.is_digit ?c] => change (JS.is_digit c) with true
    end;
    cbv iota; apply (digits_value_acc d).
Qed.

Lemma unorm_D0 d d' : Decimal.unorm d = Decimal.D0 d' -> d' = Decimal.Nil.
Proof.
  induction d; cbn [Decimal.unorm]; intros H; try discriminate H;
    [injection H as <-; reflexivity|auto].
Qed.

Lemma to_uint_normal n : Decimal.unorm (N.to_uint n) = N.to_uint n.
Proof.
  rewrite <- (DecimalN.Unsigned.of_to n) at 2.
  symmetry. apply DecimalN.Unsigned.to_of.
Qed.

(** The decimal text of a number is an array index, that number. *)
Lemma array_index_decimal n : JS.array_index (decimal n) = Some n.
Proof.
  unfold decimal. pose proof (to_uint_normal n) as Hn.
  pose proof (DecimalN.Unsigned.of_to n) as Hof.
  destruct (N.to_uint n) as [|d|d|d|d|d|d|d|d|d|d] eqn:E;
    try (rewrite <- Hof; unfold JS.array_index;
         cbn [NilZero.string_of_uint NilEmpty.string_of_uint];
         cbn [Ascii.eqb Bool.eqb andb];
         rewrite <- digits_value_of_uint; reflexivity).
  apply unorm_D0 in Hn. subst d. rewrite <- Hof. reflexivity.
Qed.

Lemma digit_char c d :
  JS.is_digit c = true -> exists d', String c (NilEmpty.string_of_uint d) = NilEmpty.string_of_uint d'.
Proof.
  destruct c as [[] [] [] [] [] [] [] []]; intros H; vm_compute in H;
    try discriminate H;
    first [ exists (Decimal.D0 d); reflexivity | exists (Decimal.D1 d); reflexivity
          | exists (Decimal.D2 d); reflexivity | exists (Decimal.D3 d); reflexivity
          | exists (Decimal.D4 d); reflexivity | exists (Decimal.D5 d); reflexivity
          | exists (Decimal.D6 d); reflexivity | exists (Decimal.D7 d); reflexivity
          | exists (Decimal.D8 d); reflexivity | exists (Decimal.D9 d); reflexivity ].
Qed.

(** Text that [digits_value] accepts is a sequence of decimal digits. *)
Lemma digits_value_uint s acc n :
  JS.digits_value acc s = Some n -> exists d, s = NilEmpty.string_of_uint d.
Proof.
  revert acc. induction s as [|c s IH]; intros acc H.
  - exists Decimal.Nil. reflexivity.
  - cbn [JS.digits_value] in H. destruct (JS.is_digit c) eqn:Hc; [|discriminate H].
    destruct (IH _ H) as [d ->]. destruct (digit_char c d Hc) as [d' Hd'].
    exists d'. exact Hd'.
Qed.

Lemma string_of_uint_empty d : NilEmpty.string_of_uint d = "" -> d = Decimal.Nil.
Proof. destruct d; [reflexivity|discriminate..]. Qed.

(** An array index is the decimal text of its number and nothing else. *)
Lemma array_index_canonical key n :
  JS.array_index key = Some n -> key = decimal n.
Proof.
  unfold JS.array_index. destruct key as [|c rest]; [discriminate|].
  destruct (Ascii.eqb c "0" && negb (String.eqb rest "")) eqn:Hz; [discriminate|].
  intros H. destruct (digits_value_uint _ _ _ H) as [d Hd].
  rewrite Hd, digits_value_of_uint in H. injection H as <-.
  unfold decimal. rewrite DecimalN.Unsigned.to_of.
  destruct d as [|d|d|d|d|d|d|d|d|d|d]; try discriminate Hd;
    try (rewrite Hd; reflexivity).
  cbn [NilEmpty.string_of_uint] in Hd. injection Hd as -> Hr.
  rewrite Ascii.eqb_refl in Hz. cbn [andb] in Hz.
  apply negb_false_iff, String.eqb_eq in Hz. subst rest.
  symmetry in Hr. apply string_of_uint_empty in Hr. subst d. reflexivity.
Qed.

Lemma digits_value_comma a x acc :
  JS.digits_value acc (a +:+ String "," x) = None.
Proof.
  revert acc. induction a as [|c a IH]; intros acc; [reflexivity|].
  change (String c a +:+ String "," x) with (String c (a +:+ String "," x)).
  cbn [JS.digits_value]. destruct (JS.is_digit c); [apply IH|reflexivity].
Qed.

Lemma array_index_comma a x : JS.array_index (a +:+ String "," x) = None.
Proof.
  destruct a as [|c a]; [reflexivity|].
  change (String c a +:+ String "," x) with (String c (a +:+ String "," x)).
  unfold JS.array_index.
  destruct (Ascii.eqb c "0" && negb (String.eqb (a +:+ String "," x) ""));
    [reflexivity|].
  apply (digits_value_comma (String c a)).
Qed.

Lemma comma_not_length a x : String.eqb (a +:+ String "," x) "length" = false.
Proof.
  apply String.eqb_neq. intros H.
  do 6 (destruct a as [|? a]; [discriminate H|]; simpl in H; injection H as _ H).
  destruct a; discriminate H.
Qed.

(** ** More on the handler *)

Section HandlerExtras.

Variable replaceTemplate : string -> value -> completion string.
Variable is_builtin : string -> bool.
Variable url_parse : string -> completion ParsedUrl.

Local Abbreviation respond := (respond replaceTemplate is_builtin).
Local Abbreviation receive := (receive replaceTemplate is_builtin url_parse).
Local Abbreviation array_get := (array_get is_builtin).
Local Abbreviation product_answer := (product_answer replaceTemplate).

Lemma respond_product_answer g req :
  pathname req = Some "/product" ->
  respond g req =
    product_answer g (array_get (dataObj g) (property_key (query req !! "id"))).
Proof.
  intros Hp. rewrite (respond_product _ _ g req Hp).
  unfold product_answer, answered. destruct (replaceTemplate _ _); reflexivity.
Qed.

Lemma respond_not_found_answer g req :
  selects NotFound (pathname req) ->
  respond g req =
    answered g 404 [("content-type", "text/html"); ("my-own-header", "hello-world")]
      "<h1>Page not found</h1>".
Proof. apply respond_not_found. Qed.

Lemma mapM_call_state {S A B} (f : A -> completion B) xs (s : S) :
  fst (mapM (fun x => call (f x)) xs s) = s.
Proof.
  apply (preserves_mapM (fun s => s)). intros x. apply preserves_call.
Qed.


(** X5: [/product?id=n], with [n] written in decimal and smaller than the
    number of products, is answered with the product template rendered with
    the product at index [n]. *)
Theorem product_page_by_index (g : Globals) (req : ParsedUrl) (n : N) (p : product) :
  pathname req = Some "/product" ->
  query req !! "id" = Some (QString (decimal n)) ->
  dataObj g !! N.to_nat n = Some p ->
  respond g req = product_answer g (VProduct p).
Proof.
  intros Hp Hq Hn. rewrite (respond_product_answer g req Hp), Hq.
  cbn [property_key]. unfold array_get. rewrite array_index_decimal, Hn.
  reflexivity.
Qed.

(** X6: the lookup [dataObj[query.id]] yields a product only for an [id]
    that is the decimal text of an index in range, without sign, space,
    fraction or leading zero (or an array holding just that text); the
    product is then the one at that index. *)
Theorem only_decimal_index_selects_product (g : Globals) (req : ParsedUrl)
    (p : product) :
  array_get (dataObj g) (property_key (query req !! "id")) = VProduct p ->
  exists n : N,
    dataObj g !! N.to_nat n = Some p /\
    (query req !! "id" = Some (QString (decimal n)) \/
     query req !! "id" = Some (QArray [decimal n])).
Proof.
  unfold array_get.
  destruct (JS.array_index (property_key (query req !! "id"))) as [n|] eqn:Hi.
  - destruct (dataObj g !! N.to_nat n) as [p'|] eqn:Hn; [|discriminate].
    intros [= <-]. exists n. split; [exact Hn|].
    pose proof (array_index_canonical _ _ Hi) as Hk.
    destruct (query req !! "id") as [[s|l]|]; cbn [property_key] in *.
    + left. rewrite Hk. reflexivity.
    + right. destruct l as [|a [|b l]].
      * discriminate Hi.
      * cbn [JS.join_comma] in Hk. rewrite Hk. reflexivity.
      * change (JS.join_comma (a :: b :: l))
          with (a +:+ String "," (JS.join_comma (b :: l))) in Hi.
        rewrite array_index_comma in Hi. discriminate Hi.
    + vm_compute in Hi. discriminate Hi.
  - destruct (String.eqb _ "length"); [discriminate|].
    destruct (is_builtin _); discriminate.
Qed.

(** X7: a repeated [id] parameter ([?id=0&id=1]) never selects a product:
    the key is the values joined by commas, and the page is rendered with
    [undefined] or with an inherited member of that name. *)
Theorem repeated_id_selects_no_product (g : Globals) (req : ParsedUrl)
    (first second : string) (others : list string) :
  pathname req = Some "/product" ->
  query req !! "id" = Some (QArray (first :: second :: others)) ->
  let key := JS.join_comma (first :: second :: others) in
  respond g req =
    product_answer g (if is_builtin key then VBuiltin key else VUndefined).
Proof.
  intros Hp Hq. cbv zeta. rewrite (respond_product_answer g req Hp), Hq.
  cbn [property_key]. unfold array_get.
  change (JS.join_comma (first :: second :: others))
    with (first +:+ String "," (JS.join_comma (second :: others))).
  rewrite array_index_comma, comma_not_length. reflexivity.
Qed.

(** The status after the statements that follow line 73. *)
Lemma respond_status (g : Globals) (req : ParsedUrl) :
  let status := statusCode (res (fst (respond g req))) in
  (status = Some 404 <-> selects NotFound (pathname req)) /\
  (snd (respond g req) = Normal tt -> status = Some 200 \/ status = Some 404) /\
  (status = None ->
   selects Overview (pathname req) /\ exists e, snd (respond g req) = Throw e) /\
  (status = Some 200 \/ status = Some 404 \/ status = None).
Proof.
  cbv zeta. destruct (selects_total (pathname req)) as [r Hr].
  assert (Hnf : forall r', r' <> NotFound -> selects r' (pathname req) ->
                  ~ selects NotFound (pathname req)).
  { intros r' Hne Hr' Hnf. apply Hne. apply (selects_unique _ _ _ Hr' Hnf). }
  destruct r.
  - specialize (Hnf Overview ltac:(discriminate) Hr).
    rewrite (respond_overview _ _ g req Hr).
    pose proof (mapM_call_state
                  (fun el => replaceTemplate (tempCard g) (VProduct el))
                  (dataObj g) {| globals := g; res := fresh |}) as Hs.
    destruct (mapM _ _ _) as [w [cards|e]]; cbn [fst] in Hs; subst w;
      unfold answered; cbn [fst snd res statusCode globals fresh];
      (split; [split; [discriminate|contradiction]|]);
      (split; [auto; discriminate|]); (split; [|auto]).
    + discriminate.
    + intros _. split; [exact Hr|]. exists e. reflexivity.
  - specialize (Hnf ProductPage ltac:(discriminate) Hr).
    rewrite (respond_product _ _ g req Hr).
    destruct (replaceTemplate _ _); cbn [fst snd res statusCode];
      (split; [split; [discriminate|contradiction]|]);
      (split; [auto; discriminate|]); (split; [discriminate|auto]).
  - specialize (Hnf Api ltac:(discriminate) Hr).
    rewrite (respond_api _ _ g req Hr). cbn [fst snd res statusCode].
    (split; [split; [discriminate|contradiction]|]);
      (split; [auto|]); (split; [discriminate|auto]).
  - rewrite (respond_not_found _ _ g req Hr). cbn [fst snd res statusCode].
    (split; [split; [intros _; exact Hr|reflexivity]|]);
      (split; [auto|]); (split; [discriminate|auto]).
Qed.

(** X8: the callback writes no status other than 200 and 404.  The status
    is 404 exactly when the target of the request parses and its pathname is
    none of the four literals; a callback that returns has written 200 or
    404; and a response left without status is that of a callback that has
    thrown.  [dataObj] is an array of products, as [Globals] has it. *)
Theorem status_is_200_or_404 (g : Globals) (target : string) :
  let status := statusCode (res (fst (receive g target))) in
  (status = Some 200 \/ status = Some 404 \/ status = None) /\
  (status = Some 404 <->
   exists req, url_parse target = Normal req /\ selects NotFound (pathname req)) /\
  (snd (receive g target) = Normal tt -> status = Some 200 \/ status = Some 404) /\
  (status = None -> exists e, snd (receive g target) = Throw e).
Proof.
  cbv zeta. unfold receive, listener. rewrite run_call.
  destruct (url_parse target) as [req|e].
  - change (handler replaceTemplate is_builtin req {| globals := g; res := fresh |})
      with (respond g req).
    destruct (respond_status g req) as (H404 & Hret & Hnone & Hall).
    split; [exact Hall|]. split; [|split; [exact Hret|]].
    + rewrite H404. split.
      * intros Hsel. exists req. split; [reflexivity|exact Hsel].
      * intros (req' & [= <-] & Hsel). exact Hsel.
    + intros Hn. destruct (Hnone Hn) as (_ & e & He). exists e. exact He.
  - cbn [fst snd res statusCode fresh]. split; [auto|]. split; [|split].
    + split; [discriminate|]. intros (req & [=] & _).
    + discriminate.
    + intros _. exists e. reflexivity.
Qed.

(** X9: routes are matched whole, never as prefixes: [/overview], [/product]
    and [/api] followed by anything more (a trailing slash, a further
    segment) are answered 404, and so is a request whose URL has no
    pathname. *)
Theorem routes_are_not_prefixes (g : Globals) (q : gmap string query_value) :
  (forall route suffix,
     In route ["/overview"; "/product"; "/api"] -> suffix <> "" ->
     respond g {| pathname := Some (route +:+ suffix); query := q |} =
       answered g 404 [("content-type", "text/html"); ("my-own-header", "hello-world")]
         "<h1>Page not found</h1>") /\
  respond g {| pathname := None; query := q |} =
    answered g 404 [("content-type", "text/html"); ("my-own-header", "hello-world")]
      "<h1>Page not found</h1>".
Proof.
  split.
  - intros route suffix Hin Hs. apply respond_not_found_answer. cbn [pathname selects].
    destruct Hin as [<-|[<-|[<-|[]]]];
      repeat split; intros [= E]; first [exact (Hs E)|discriminate E].
  - apply respond_not_found_answer. cbn. repeat split; discriminate.
Qed.

(** X10: the query string matters on [/product] only, and there only
    through [id]: two requests with the same pathname are answered alike
    when the pathname is not [/product] or when their [id] parameters are
    equal. *)
Theorem query_matters_only_as_product_id (g : Globals) (p : option string)
    (q1 q2 : gmap string query_value) :
  p <> Some "/product" \/ q1 !! "id" = q2 !! "id" ->
  respond g {| pathname := p; query := q1 |} =
  respond g {| pathname := p; query := q2 |}.
Proof.
  intros H. destruct (selects_total p) as [r Hr].
  destruct r.
  - unfold respond.
    rewrite (handler_branch _ _ {| pathname := p; query := q1 |} Overview Hr).
    rewrite (handler_branch _ _ {| pathname := p; query := q2 |} Overview Hr).
    reflexivity.
  - destruct H as [H|H]; [contradiction|].
    rewrite !respond_product_answer by exact Hr. cbn [query]. rewrite H. reflexivity.
  - unfold respond.
    rewrite (handler_branch _ _ {| pathname := p; query := q1 |} Api Hr).
    rewrite (handler_branch _ _ {| pathname := p; query := q2 |} Api Hr).
    reflexivity.
  - unfold respond.
    rewrite (handler_branch _ _ {| pathname := p; query := q1 |} NotFound Hr).
    rewrite (handler_branch _ _ {| pathname := p; query := q2 |} NotFound Hr).
    reflexivity.
Qed.

End HandlerExtras.

(** ** More on start-up *)

Section StartupExtras.

Variable dirname : string.
Variable JSON_parse : string -> completion (list product).

Local Abbreviation top_level := (top_level dirname JSON_parse).
Local Abbreviation start := (start dirname JSON_parse).
Local Abbreviation top_level_reads := (top_level_reads dirname).
Local Abbreviation after_top_level := (after_top_level dirname).
Local Abbreviation state_at_crash := (state_at_crash dirname).
Local Abbreviation callbacks := (callbacks dirname).
Local Abbreviation read_chain := (read_chain dirname).

Ltac step_script :=
  first
    [ rewrite run_read; cbn [files console];
      rewrite ?lookup_insert_ne by path_neq
    | rewrite run_write; cbn [files console]
    | rewrite run_log; cbn [files console]
    | rewrite run_call ].

Lemma files_logged msgs s : files (logged msgs s) = files s.
Proof. reflexivity. Qed.

(** The callbacks write at most [txt/output.txt]. *)
Lemma callbacks_files s0 path :
  path <> dirname +:+ "/txt/output.txt" ->
  files (fst (callbacks s0)) !! path = files s0 !! path.
Proof.
  intros Hp. rewrite callbacks_run, read_chain_cases.
  unfold logged. cbn [files].
  destruct (files s0 !! (dirname +:+ "/txt/start.txt")) as [name|]; [|reflexivity].
  destruct (files s0 !! (dirname +:+ "/txt/" +:+ name +:+ ".txt")) as [text|];
    [|reflexivity].
  destruct (files s0 !! (dirname +:+ "/txt/append.txt")) as [ta|]; [|reflexivity].
  cbn [fst files]. rewrite lookup_insert_ne by congruence. reflexivity.
Qed.

(** X11: when one of the six files read at top level cannot be read, the
    process ends with the error of the first such file in the order of the
    script.  If that file is one of the two text inputs nothing has been
    written or printed; otherwise [txt/output.txt] and [final.txt] have both
    been written and both messages printed. *)
Theorem crash_names_first_unreadable_file (disk : gmap string string)
    (i : nat) (path : string) :
  top_level_reads !! i = Some path ->
  disk !! path = None ->
  (forall j earlier, (j < i)%nat -> top_level_reads !! j = Some earlier ->
     is_Some (disk !! earlier)) ->
  start disk = Crashed (state_at_crash disk) (ENOENT path).
Proof.
  intros Hi Hnone Hearlier. unfold start, top_level, state_at_crash.
  assert (Hread : forall j earlier, (j < i)%nat ->
            top_level_reads !! j = Some earlier -> exists t, disk !! earlier = Some t).
  { intros j earlier Hj He. destruct (Hearlier j earlier Hj He) as [t Ht]. eauto. }
  destruct i as [|[|i]].
  - injection Hi as <-. step_script. rewrite Hnone. reflexivity.
  - injection Hi as <-.
    destruct (Hread 0%nat _ ltac:(lia) eq_refl) as [ti Hti].
    step_script. rewrite Hti. step_script. rewrite Hnone. reflexivity.
  - destruct (Hread 0%nat _ ltac:(lia) eq_refl) as [ti Hti].
    destruct (Hread 1%nat _ ltac:(lia) eq_refl) as [ta Hta].
    step_script. rewrite Hti. step_script. rewrite Hta. do 4 step_script.
    destruct i as [|[|[|[|i]]]].
    + injection Hi as <-. step_script. rewrite Hnone. reflexivity.
    + injection Hi as <-.
      destruct (Hread 2%nat _ ltac:(lia) eq_refl) as [t2 H2].
      step_script. rewrite H2. step_script. rewrite Hnone. reflexivity.
    + injection Hi as <-.
      destruct (Hread 2%nat _ ltac:(lia) eq_refl) as [t2 H2].
      destruct (Hread 3%nat _ ltac:(lia) eq_refl) as [t3 H3].
      step_script. rewrite H2. step_script. rewrite H3.
      step_script. rewrite Hnone. reflexivity.
    + injection Hi as <-.
      destruct (Hread 2%nat _ ltac:(lia) eq_refl) as [t2 H2].
      destruct (Hread 3%nat _ ltac:(lia) eq_refl) as [t3 H3].
      destruct (Hread 4%nat _ ltac:(lia) eq_refl) as [t4 H4].
      step_script. rewrite H2. step_script. rewrite H3.
      step_script. rewrite H4. step_script. rewrite Hnone. reflexivity.
    + discriminate Hi.
Qed.

(** X12: JSON text that does not parse is fatal as well: when the six files
    can be read and [JSON.parse] throws, the process ends with that
    exception before the server listens, after [txt/output.txt] and
    [final.txt] have been written. *)
Theorem malformed_json_is_fatal (disk : gmap string string)
    (textInput textAppend tOverview tCard tProduct text : string) (e : exn) :
  disk !! (dirname +:+ "/txt/input.txt") = Some textInput ->
  disk !! (dirname +:+ "/txt/append.txt") = Some textAppend ->
  disk !! (dirname +:+ "/templates/template-overview.html") = Some tOverview ->
  disk !! (dirname +:+ "/templates/template-card.html") = Some tCard ->
  disk !! (dirname +:+ "/templates/template-product.html") = Some tProduct ->
  disk !! (dirname +:+ "/dev-data/data.json") = Some text ->
  JSON_parse text = Throw e ->
  start disk = Crashed (after_top_level disk textInput textAppend) e.
Proof.
  intros H1 H2 H3 H4 H5 H6 H7. unfold start, top_level.
  step_script. rewrite H1. step_script. rewrite H2. do 5 step_script.
  rewrite H3. step_script. rewrite H4. step_script. rewrite H5.
  step_script. rewrite H6. step_script. rewrite H7. reflexivity.
Qed.

(** X13: a serving process holds the three templates exactly as the files
    were when it started (its own writes to [txt/output.txt] and [final.txt]
    come before the reads but touch none of them), and [dataObj] is what
    [JSON.parse] returned for the text in [data]. *)
Theorem serving_constants_are_disk_contents (disk : gmap string string)
    (s : System) (g : Globals) :
  start disk = Serving s g ->
  disk !! (dirname +:+ "/templates/template-overview.html") = Some (tempOverview g) /\
  disk !! (dirname +:+ "/templates/template-card.html") = Some (tempCard g) /\
  disk !! (dirname +:+ "/templates/template-product.html") = Some (tempProduct g) /\
  JSON_parse (data g) = Normal (dataObj g).
Proof.
  intros Hs. apply start_serving in Hs as (s0 & Ht & _).
  apply top_level_normal in Ht as (ti & ta & _ & _ & H3 & H4 & H5 & _ & H7 & _).
  auto.
Qed.

(** X14: what a serving process has done to the disk: [final.txt] holds
    the two text inputs joined by a newline, and every file other than
    [final.txt] and [txt/output.txt] is as it was. *)
Theorem files_after_start (disk : gmap string string) (s : System) (g : Globals) :
  start disk = Serving s g ->
  exists textInput textAppend,
    disk !! (dirname +:+ "/txt/input.txt") = Some textInput /\
    disk !! (dirname +:+ "/txt/append.txt") = Some textAppend /\
    files s !! "final.txt" = Some (textInput +:+ newline +:+ textAppend) /\
    (forall path, path <> "final.txt" -> path <> dirname +:+ "/txt/output.txt" ->
       files s !! path = disk !! path).
Proof.
  intros Hs. apply start_serving in Hs as (s0 & Ht & ->).
  apply top_level_normal in Ht as (ti & ta & H1 & H2 & _ & _ & _ & _ & _ & ->).
  exists ti, ta. split; [exact H1|]. split; [exact H2|].
  assert (Hfinal : "final.txt" <> dirname +:+ "/txt/output.txt") by path_neq.
  split.
  - rewrite callbacks_files by exact Hfinal.
    unfold after_top_level. cbn [files]. apply lookup_insert_eq.
  - intros path Hp1 Hp2. rewrite callbacks_files by exact Hp2.
    unfold after_top_level. cbn [files].
    rewrite !lookup_insert_ne by congruence. reflexivity.
Qed.

(** X15: the chain of callbacks in a serving process, when it succeeds.
    The chain reads the disk as the top-level statements left it.  If
    [txt/start.txt] then holds a name without a slash (the file it names is
    then in [txt], and is not reached by another path that the script
    writes to) and the file of that name can be read,
    the console ends with the text of that file, the text of
    [txt/append.txt] and ["File written!"], after the message of
    [server.listen], and [txt/output.txt] holds the first text, a newline and
    the second.  The read of [txt/append.txt] cannot fail, that file having
    been read at top level; and the name [output] reads back the greeting
    written on line 19. *)
Theorem chain_outcome (disk : gmap string string) (s : System) (g : Globals)
    (textInput textAppend name text : string) :
  start disk = Serving s g ->
  disk !! (dirname +:+ "/txt/input.txt") = Some textInput ->
  disk !! (dirname +:+ "/txt/append.txt") = Some textAppend ->
  files (after_top_level disk textInput textAppend)
    !! (dirname +:+ "/txt/start.txt") = Some name ->
  slashless name = true ->
  files (after_top_level disk textInput textAppend)
    !! (dirname +:+ "/txt/" +:+ name +:+ ".txt") = Some text ->
  console s = ["Text written!"; "Final text written!"; "Listening to local host...";
               text; textAppend; "File written!"] /\
  files s !! (dirname +:+ "/txt/output.txt") = Some (text +:+ newline +:+ textAppend) /\
  (name = "output" -> text = "Hello World!").
Proof.
  intros Hs H1 H2 Hname _ Htext. apply start_serving in Hs as (s0 & Ht & ->).
  apply top_level_normal in Ht as (ti & ta & H1' & H2' & _ & _ & _ & _ & _ & ->).
  rewrite H1 in H1'. injection H1' as <-. rewrite H2 in H2'. injection H2' as <-.
  assert (Happend : files (after_top_level disk textInput textAppend)
                      !! (dirname +:+ "/txt/append.txt") = Some textAppend).
  { unfold after_top_level. cbn [files].
    rewrite !lookup_insert_ne by path_neq. exact H2. }
  rewrite callbacks_run, read_chain_cases.
  rewrite !files_logged, Hname, Htext, Happend.
  cbn [fst console files]. split; [reflexivity|]. split; [apply lookup_insert_eq|].
  intros ->. revert Htext. unfold after_top_level. cbn [files].
  rewrite lookup_insert_ne by path_neq.
  change (dirname +:+ "/txt/" +:+ "output" +:+ ".txt")
    with (dirname +:+ "/txt/output.txt").
  rewrite lookup_insert_eq. intros [= <-]. reflexivity.
Qed.

End StartupExtras.

(** ** The second farm *)

(** The overview of the second farm: the cards replace the first
    placeholder, the second one is sent as it is. *)
Lemma overview_replaces_first_placeholder_witness :
  let req := Sample.get "/overview" None in
  let cards := ["<li>Pears</li>"; "<li>Plums</li>"] in
  tempOverview Orchard.farm =
    "<ul>" +:+ "{%PRODUCT_CARDS%}" +:+ "</ul><!--{%PRODUCT_CARDS%}-->" /\
  JS.dollar_free (JS.join cards) = true /\
  respond Template.render Sample.no_builtin Orchard.farm req =
    answered Orchard.farm 200 [("content-type", "text/html")]
      "<ul><li>Pears</li><li>Plums</li></ul><!--{%PRODUCT_CARDS%}-->".
Proof.
  cbv zeta. split; [reflexivity|]. split; [reflexivity|].
  apply (overview_replaces_first_placeholder Template.render Sample.no_builtin
           Orchard.farm (Sample.get "/overview" None)
           ["<li>Pears</li>"; "<li>Plums</li>"]
           "<ul>" "</ul><!--{%PRODUCT_CARDS%}-->").
  - right. reflexivity.
  - repeat constructor.
  - reflexivity.
  - apply (search_leftmost "{%PRODUCT_CARDS%}" (tempOverview Orchard.farm)
             "<ul>" "</ul><!--{%PRODUCT_CARDS%}-->").
    reflexivity.
  - reflexivity.
Defined.

(** An overview template without placeholder is sent as it is. *)
Lemma overview_without_placeholder_witness :
  JS.search "{%PRODUCT_CARDS%}" (tempOverview Orchard.bare) = None /\
  respond Template.render Sample.no_builtin Orchard.bare (Sample.get "/" None) =
    answered Orchard.bare 200 [("content-type", "text/html")] "<p>closed</p>".
Proof.
  split; [reflexivity|].
  apply (overview_without_placeholder Template.render Sample.no_builtin
           Orchard.bare (Sample.get "/" None) ["<li>Pears</li>"; "<li>Plums</li>"]).
  - left. reflexivity.
  - repeat constructor.
  - apply search_none. reflexivity.
Defined.

(** A product without a name stops the overview before anything is
    written. *)
Lemma overview_render_failure_witness :
  dataObj Orchard.broken = ([Orchard.pears] ++ [] :: [Orchard.plums])%list /\
  Orchard.strict (tempCard Orchard.broken) (VProduct [])
    = Throw "TypeError: product has no name" /\
  respond Orchard.strict Sample.no_builtin Orchard.broken (Sample.get "/overview" None) =
    ({| globals := Orchard.broken; res := fresh |},
     Throw "TypeError: product has no name").
Proof.
  split; [reflexivity|]. split; [reflexivity|].
  apply (overview_render_failure Orchard.strict Sample.no_builtin Orchard.broken
           (Sample.get "/overview" None) [Orchard.pears] [Orchard.plums] []).
  - right. reflexivity.
  - reflexivity.
  - constructor; [eexists; reflexivity|constructor].
  - reflexivity.
Defined.

(** The overview of a farm without products, also with a renderer that
    would throw. *)
Lemma overview_of_empty_farm_witness :
  dataObj Orchard.vacant = [] /\
  respond Orchard.strict Sample.no_builtin Orchard.vacant (Sample.get "/overview" None) =
    answered Orchard.vacant 200 [("content-type", "text/html")]
      "<ul></ul><!--{%PRODUCT_CARDS%}-->".
Proof.
  split; [reflexivity|].
  apply (proj1 (overview_of_empty_farm Orchard.strict Sample.no_builtin Orchard.vacant
                  (Sample.get "/overview" None) (or_intror eq_refl) eq_refl)
           "<ul>" "</ul><!--{%PRODUCT_CARDS%}-->").
  - reflexivity.
  - apply (search_leftmost "{%PRODUCT_CARDS%}" (tempOverview Orchard.vacant)
             "<ul>" "</ul><!--{%PRODUCT_CARDS%}-->").
    reflexivity.
Defined.

(** [/product?id=1] on the second farm is the page of the plums. *)
Lemma product_page_by_index_witness :
  decimal 1 = "1" /\
  dataObj Orchard.farm !! N.to_nat 1 = Some Orchard.plums /\
  respond Template.render Sample.no_builtin Orchard.farm
    (Sample.get "/product" (Some "1")) =
    answered Orchard.farm 200 [("content-type", "text/html")] "<h1>Plums</h1>".
Proof.
  split; [reflexivity|]. split; [reflexivity|].
  apply (product_page_by_index Template.render Sample.no_builtin Orchard.farm
           (Sample.get "/product" (Some "1")) 1%N Orchard.plums);
    reflexivity.
Defined.

(** The lookup that yields the plums was made with their index. *)
Lemma only_decimal_index_selects_product_witness :
  array_get Sample.no_builtin (dataObj Orchard.farm)
    (property_key (query (Sample.get "/product" (Some "1")) !! "id"))
    = VProduct Orchard.plums /\
  exists n : N,
    dataObj Orchard.farm !! N.to_nat n = Some Orchard.plums /\
    (query (Sample.get "/product" (Some "1")) !! "id" = Some (QString (decimal n)) \/
     query (Sample.get "/product" (Some "1")) !! "id" = Some (QArray [decimal n])).
Proof.
  split; [reflexivity|].
  apply (only_decimal_index_selects_product Sample.no_builtin Orchard.farm
           (Sample.get "/product" (Some "1")) Orchard.plums).
  reflexivity.
Defined.

(** [/product?id=0&id=1] on the second farm is rendered with [undefined]. *)
Lemma repeated_id_selects_no_product_witness :
  let req := {| pathname := Some "/product";
                query := {[ "id" := QArray ["0"; "1"] ]} |} in
  query req !! "id" = Some (QArray ["0"; "1"]) /\
  respond Template.render Sample.no_builtin Orchard.farm req =
    answered Orchard.farm 200 [("content-type", "text/html")] "<h1>{%PRODUCTNAME%}</h1>".
Proof.
  cbv zeta. split; [reflexivity|].
  apply (repeated_id_selects_no_product Template.render Sample.no_builtin Orchard.farm
           {| pathname := Some "/product"; query := {[ "id" := QArray ["0"; "1"] ]} |}
           "0" "1" []);
    reflexivity.
Defined.

(** [/api] and [/api?id=7] are answered alike. *)
Lemma query_matters_only_as_product_id_witness :
  Some "/api" <> Some "/product" /\
  respond Template.render Sample.no_builtin Orchard.farm
    {| pathname := Some "/api"; query := ∅ |} =
  respond Template.render Sample.no_builtin Orchard.farm
    {| pathname := Some "/api"; query := {[ "id" := QString "7" ]} |}.
Proof.
  split; [discriminate|].
  apply (query_matters_only_as_product_id Template.render Sample.no_builtin Orchard.farm
           (Some "/api") ∅ {[ "id" := QString "7" ]}).
  left. discriminate.
Defined.

(** Without the card template the process ends at the fourth read, the two
    text files written. *)
Lemma crash_names_first_unreadable_file_witness :
  let disk := delete "/app/templates/template-card.html" Sample.disk in
  top_level_reads "/app" !! 3%nat = Some "/app/templates/template-card.html" /\
  disk !! "/app/templates/template-card.html" = None /\
  start "/app" Sample.parse disk =
    Crashed (after_top_level "/app" disk "first" "second")
      (ENOENT "/app/templates/template-card.html").
Proof.
  cbv zeta. split; [reflexivity|]. split; [reflexivity|].
  etransitivity.
  - apply (crash_names_first_unreadable_file "/app" Sample.parse
             (delete "/app/templates/template-card.html" Sample.disk) 3
             "/app/templates/template-card.html").
    + reflexivity.
    + reflexivity.
    + intros j earlier Hj He.
      destruct j as [|[|[|j]]]; [| | |lia]; injection He as <-; eexists; reflexivity.
  - vm_compute. reflexivity.
Defined.

(** A JSON document cut short ends the process after the two writes. *)
Lemma malformed_json_is_fatal_witness :
  Orchard.torn !! "/app/dev-data/data.json" = Some "[{" /\
  Sample.parse "[{" = Throw "SyntaxError: Unexpected token" /\
  start "/app" Sample.parse Orchard.torn =
    Crashed (after_top_level "/app" Orchard.torn "first" "second")
      "SyntaxError: Unexpected token".
Proof.
  split; [reflexivity|]. split; [reflexivity|].
  apply (malformed_json_is_fatal "/app" Sample.parse Orchard.torn
           "first" "second" (tempOverview Sample.farm) (tempCard Sample.farm)
           (tempProduct Sample.farm) "[{"); reflexivity.
Defined.

(** The sample farm serves the templates of its disk. *)
Lemma serving_constants_are_disk_contents_witness :
  start "/app" Sample.parse Sample.disk = Serving Sample.booted Sample.farm /\
  Sample.disk !! "/app/templates/template-card.html" = Some (tempCard Sample.farm) /\
  Sample.parse (data Sample.farm) = Normal (dataObj Sample.farm).
Proof.
  assert (Hs : start "/app" Sample.parse Sample.disk
               = Serving Sample.booted Sample.farm) by (vm_compute; reflexivity).
  split; [exact Hs|].
  destruct (serving_constants_are_disk_contents "/app" Sample.parse Sample.disk
              Sample.booted Sample.farm Hs) as (_ & Hc & _ & Hj).
  split; [exact Hc|exact Hj].
Defined.

(** The disk of the sample farm once it serves. *)
Lemma files_after_start_witness :
  start "/app" Sample.parse Sample.disk = Serving Sample.booted Sample.farm /\
  exists textInput textAppend,
    Sample.disk !! "/app/txt/input.txt" = Some textInput /\
    Sample.disk !! "/app/txt/append.txt" = Some textAppend /\
    files Sample.booted !! "final.txt" = Some (textInput +:+ newline +:+ textAppend) /\
    (forall path, path <> "final.txt" -> path <> "/app" +:+ "/txt/output.txt" ->
       files Sample.booted !! path = Sample.disk !! path).
Proof.
  assert (Hs : start "/app" Sample.parse Sample.disk
               = Serving Sample.booted Sample.farm) by (vm_compute; reflexivity).
  split; [exact Hs|].
  apply (files_after_start "/app" Sample.parse Sample.disk Sample.booted Sample.farm Hs).
Defined.

(** The chain of the second disk: [txt/start.txt] names [txt/read-this.txt]. *)
Lemma chain_outcome_witness :
  start "/app" Sample.parse Orchard.disk = Serving Orchard.booted Sample.farm /\
  console Orchard.booted =
    ["Text written!"; "Final text written!"; "Listening to local host...";
     "The avocado"; "second"; "File written!"] /\
  files Orchard.booted !! "/app/txt/output.txt"
    = Some ("The avocado" +:+ newline +:+ "second").
Proof.
  assert (Hs : start "/app" Sample.parse Orchard.disk
               = Serving Orchard.booted Sample.farm) by (vm_compute; reflexivity).
  split; [exact Hs|].
  destruct (chain_outcome "/app" Sample.parse Orchard.disk Orchard.booted Sample.farm
              "first" "second" "read-this" "The avocado" Hs
              eq_refl eq_refl eq_refl eq_refl eq_refl) as (Hc & Hf & _).
  split; [exact Hc|exact Hf].
Defined.


